(** * Manifest transform and glob policy of the SvelteKit PWA integration

    Shallow embedding of [src/config.ts]: the glob policy builders
    ([buildGlobPatterns], [buildGlobIgnores]), the fallback entry builder
    ([buildManifestEntry]) and the workbox manifest transform
    ([createManifestTransform]), followed by the properties that the
    specification states about them. *)

From Stdlib Require Import ZArith String Ascii Bool Lia.
From stdpp Require Import base option list strings.

Local Open Scope string_scope.
Local Open Scope Z_scope.

(** ** JavaScript string primitives

    A JavaScript string is a sequence of UTF-16 code units; every method used
    by [config.ts] ([startsWith], [endsWith], [slice], [substring],
    [lastIndexOf], [includes], [===]) works code unit by code unit, and every
    literal it is compared with is ASCII.  A [string] stands for that
    sequence, one [ascii] per code unit.  Indices are [Z], as [lastIndexOf]
    answers [-1] and [slice] accepts negative positions. *)

Module JsString.

Definition len (s : string) : Z := Z.of_nat (String.length s).

(** The code units in positions [from] (included) to [to] (excluded). *)
Definition between (from to : Z) (s : string) : string :=
  String.substring (Z.to_nat from) (Z.to_nat (to - from)) s.

(** Relative position of [slice]: negative positions count from the end. *)
Definition rel_index (k n : Z) : Z :=
  if k <? 0 then Z.max (n + k) 0 else Z.min k n.

(** [s.slice(start, end)]; [end_ = None] is an omitted second argument. *)
Definition slice (s : string) (start : Z) (end_ : option Z) : string :=
  let n := len s in
  let from := rel_index start n in
  let to := match end_ with Some e => rel_index e n | None => n end in
  if to <=? from then "" else between from to s.

(** Position of [substring]: clamped to [0 .. n]. *)
Definition clamp_index (k n : Z) : Z := Z.min (Z.max k 0) n.

(** [s.substring(start, end)]: both positions clamped, then ordered. *)
Definition substring (s : string) (start : Z) (end_ : option Z) : string :=
  let n := len s in
  let fs := clamp_index start n in
  let fe := match end_ with Some e => clamp_index e n | None => n end in
  between (Z.min fs fe) (Z.max fs fe) s.

(** [s.startsWith(p)] *)
Definition startsWith (s p : string) : bool := String.prefix p s.

(** [s.endsWith(p)]: the last [len p] code units of [s] are [p]. *)
Definition endsWith (s p : string) : bool :=
  let start := len s - len p in
  if start <? 0 then false else String.eqb (between start (len s) s) p.

(** [s.includes(p)]: [p] occurs at some position of [s]. *)
Fixpoint includes (s p : string) : bool :=
  String.prefix p s
  || match s with
     | EmptyString => false
     | String _ s' => includes s' p
     end.

(** Scan of [lastIndexOf]: [i] is the position of the first code unit of
    [s] in the whole string, [acc] the last position found so far. *)
Fixpoint lastIndexOf_go (p s : string) (i acc : Z) : Z :=
  let acc' := if String.prefix p s then i else acc in
  match s with
  | EmptyString => acc'
  | String _ s' => lastIndexOf_go p s' (i + 1) acc'
  end.

(** [s.lastIndexOf(p)]: the greatest position where [p] occurs, or [-1]. *)
Definition lastIndexOf (s p : string) : Z := lastIndexOf_go p s 0 (-1).

(** Truthiness of an optional string: [undefined] and [''] are falsy. *)
Definition truthy (o : option string) : bool :=
  match o with
  | Some s => negb (String.eqb s "")
  | None => false
  end.

End JsString.

Import JsString.

(** ** Glob policy builders *)

Definition clientPattern : string :=
  "client/**/*.{js,css,ico,png,svg,webp,webmanifest}".
Definition prerenderedPattern : string := "prerendered/**/*.{html,json,js}".
Definition webManifestPattern : string := "client/*.webmanifest".
Definition serverIgnore : string := "server/**".

(** [arr.some(pred)] *)
Definition some {A} (pred : A -> bool) (arr : list A) : bool := existsb pred arr.

(** [arr.push(x)]: the content of the array afterwards. *)
Definition push {A} (arr : list A) (x : A) : list A := (arr ++ [x])%list.

(** [buildGlobPatterns(globPatterns?)].  The argument array, when present, is
    pushed to and returned: the result is the content of that same array after
    the call.  An array is truthy even when empty. *)
Definition buildGlobPatterns (globPatterns : option (list string)) : list string :=
  match globPatterns with
  | Some globPatterns =>
      let globPatterns :=
        if negb (some (fun g => startsWith g "prerendered/") globPatterns)
        then push globPatterns prerenderedPattern else globPatterns in
      let globPatterns :=
        if negb (some (fun g => startsWith g "client/") globPatterns)
        then push globPatterns clientPattern else globPatterns in
      let globPatterns :=
        if negb (some (fun g => includes g "webmanifest") globPatterns)
        then push globPatterns webManifestPattern else globPatterns in
      globPatterns
  | None => [clientPattern; prerenderedPattern]
  end.

(** [buildGlobIgnores(globIgnores?)] *)
Definition buildGlobIgnores (globIgnores : option (list string)) : list string :=
  match globIgnores with
  | Some globIgnores =>
      if negb (some (fun g => startsWith g "server/") globIgnores)
      then push globIgnores serverIgnore else globIgnores
  | None => [serverIgnore]
  end.

(** ** The per-entry URL rewriting of the manifest transform *)

Definition defaultAdapterFallback : string := "prerendered/fallback.html".

(** Lines 124-131: the prefix dispatch, an [if / else if] chain. *)
Definition resolvePrefix (adapterFallback url : string) : string :=
  if startsWith url "client/" then slice url 7 None
  else if startsWith url "prerendered/dependencies/" then slice url 25 None
  else if startsWith url "prerendered/pages/" then slice url 18 None
  else if String.eqb url defaultAdapterFallback then adapterFallback
  else url.

(** Lines 134-135: one leading slash is removed. *)
Definition stripLeadingSlash (url : string) : string :=
  if startsWith url "/" then slice url 1 None else url.

(** Lines 137-154: the pretty URL of a path already stripped of its leading
    slash. *)
Definition prettyUrl (base suffix url : string) : string :=
  if String.eqb url "index.html" then base
  else
    let idx := lastIndexOf url "/" in
    if idx >? -1 then
      if endsWith url "/index.html"
      then slice url 0 (Some idx) +:+ suffix
      else substring url 0 (Some (lastIndexOf url ".")) +:+ suffix
    else substring url 0 (Some (lastIndexOf url ".")) +:+ suffix.

(** Lines 118-155: the value assigned to [e.url] by the [map] callback. *)
Definition rewriteUrl (base suffix adapterFallback url : string) : string :=
  let url := resolvePrefix adapterFallback url in
  if endsWith url ".html" then prettyUrl base suffix (stripLeadingSlash url)
  else url.

(** ** Entry objects and the object store

    The transform receives an array of entry objects and assigns to their
    [url] field ([e.url = url], line 157): an entry is an object in a store,
    and arrays hold references to objects. *)

Record ManifestEntry : Type := mkEntry {
  url : string;
  revision : string;
  size : Z;
}.

(** A reference is the position of the object in the store. *)
Abbreviation loc := nat (only parsing).
Abbreviation store := (list ManifestEntry) (only parsing).

(** An object literal [{ ... }]: a new object, at the first free position. *)
Definition alloc (h : store) (e : ManifestEntry) : store * loc :=
  ((h ++ [e])%list, length h).

(** [e.url] of the object behind a reference. *)
Definition urlAt (h : store) (l : loc) : option string := url <$> h !! l.

(** [e.url = u] *)
Definition setUrl (u : string) (e : ManifestEntry) : ManifestEntry :=
  {| url := u; revision := revision e; size := size e |}.

(** [arr.map(f)] for a callback that updates the object it is given and
    returns it: the store after the call; the new array holds the
    references of the old one. *)
Definition alterAll (f : ManifestEntry -> ManifestEntry)
    (refs : list loc) (h : store) : store :=
  foldl (fun h l => alter f l h) h refs.

(** Lines 118-159: the body of the [map] callback, on the entry object. *)
Definition rewriteEntry (base suffix adapterFallback : string)
    (e : ManifestEntry) : ManifestEntry :=
  setUrl (rewriteUrl base suffix adapterFallback (url e)) e.

(** ** Promises, streams and the host

    The outcome of awaiting a promise: a value, or the rejection reason, which
    [await] rethrows. *)

Inductive Settled (E A : Type) : Type :=
| Resolved (a : A)
| Rejected (err : E).
Arguments Resolved {E A} a.
Arguments Rejected {E A} err.

(** What a read stream emits: ['data'] events, closed by one ['end'] or one
    ['error']. *)
Inductive ReadStream (E C : Type) : Type :=
| OnData (chunk : C) (rest : ReadStream E C)
| OnError (err : E)
| OnEnd.
Arguments OnData {E C} chunk rest.
Arguments OnError {E C} err.
Arguments OnEnd {E C}.

(** The stream that emits the given chunks, then goes on as [stream]. *)
Fixpoint emitData {E C} (chunks : list C) (stream : ReadStream E C)
    : ReadStream E C :=
  match chunks with
  | [] => stream
  | chunk :: chunks => OnData chunk (emitData chunks stream)
  end.

(** The Node primitives [config.ts] calls: [crypto.createHash('MD5')] with
    its [update] and [digest('hex')], [fs.createReadStream] and
    [path.resolve]. *)
Record Host (E C H : Type) : Type := mkHost {
  createHash : H;
  update : H -> C -> H;
  digestHex : H -> string;
  createReadStream : string -> ReadStream E C;
  resolve : string -> string -> string;
}.
Arguments createHash {E C H} _.
Arguments update {E C H} _ _ _.
Arguments digestHex {E C H} _ _.
Arguments createReadStream {E C H} _ _.
Arguments resolve {E C H} _ _ _.

(** Modelled from the spec: the option types of [./types], which is not among
    the sources.  [spa] is a boolean or an object with an optional
    [fallbackMapping] and an optional asynchronous [fallbackRevision]
    supplier, here the outcome of calling and awaiting it; [trailingSlash] and
    [adapterFallback] are optional strings.  Only the fields read by the
    manifest transform are kept. *)
Record SpaObject (E : Type) : Type := mkSpa {
  fallbackMapping : option string;
  fallbackRevision : option (Settled E string);
}.
Arguments mkSpa {E} _ _.
Arguments fallbackMapping {E} _.
Arguments fallbackRevision {E} _.

(** Modelled from the spec: the [spa] option of [./types], [boolean] or the
    object above. *)
Inductive SpaOption (E : Type) : Type :=
| SpaBool (b : bool)
| SpaObj (o : SpaObject E).
Arguments SpaBool {E} b.
Arguments SpaObj {E} o.

(** Modelled from the spec: the [KitOptions] of [./types], restricted to the
    fields the manifest transform reads. *)
Record KitOptions (E : Type) : Type := mkKit {
  adapterFallback : option string;
  trailingSlash : option string;
  spa : option (SpaOption E);
}.
Arguments mkKit {E} _ _ _.
Arguments adapterFallback {E} _.
Arguments trailingSlash {E} _.
Arguments spa {E} _.

Section Transform.

Context {E C H : Type}.
Variable host : Host E C H.

(** Lines 222-239: the promise of [buildManifestEntry] rejects on the
    stream's ['error'] and resolves on its ['end'], the hash having been
    fed every chunk before. *)
Fixpoint hashStream (stream : ReadStream E C) (cHash : H) : Settled E H :=
  match stream with
  | OnData chunk rest => hashStream rest (update host cHash chunk)
  | OnError err => Rejected err
  | OnEnd => Resolved cHash
  end.

Definition buildManifestEntry (url path : string) : Settled E ManifestEntry :=
  match hashStream (createReadStream host path) (createHash host) with
  | Resolved cHash =>
      Resolved {| url := url; size := 0; revision := digestHex host cHash |}
  | Rejected err => Rejected err
  end.

(** [options?.adapterFallback], [options?.trailingSlash], [options?.spa] *)
Definition optAdapterFallback (options : option (KitOptions E)) : option string :=
  options ≫= adapterFallback.
Definition optTrailingSlash (options : option (KitOptions E)) : option string :=
  options ≫= trailingSlash.
Definition optSpa (options : option (KitOptions E)) : option (SpaOption E) :=
  options ≫= spa.

(** Truthiness of [options?.spa]: an object is truthy. *)
Definition spaTruthy (s : option (SpaOption E)) : bool :=
  match s with
  | Some (SpaBool b) => b
  | Some (SpaObj _) => true
  | None => false
  end.

(** Line 104 *)
Definition suffixOf (options : option (KitOptions E)) : string :=
  if bool_decide (optTrailingSlash options = Some "always") then "/" else "".

(** Lines 105-112: the pair [(adapterFallback, excludeFallback)]. *)
Definition fallbackOf (options : option (KitOptions E)) : string * bool :=
  let adapterFallback := optAdapterFallback options in
  if negb (truthy adapterFallback) then (defaultAdapterFallback, true)
  else (default defaultAdapterFallback adapterFallback, false).

(** Line 116: the predicate of the first [filter], on the entry object. *)
Definition keepEntry (excludeFallback : bool) (h : store) (l : loc) : bool :=
  negb (excludeFallback
        && bool_decide (urlAt h l = Some defaultAdapterFallback)).

(** Lines 117-160: the [map] callback assigns the rewritten url to the
    entry it was given and returns that entry; over the array, the store
    is updated entry after entry and the references stay as they are. *)
Definition mapEntries (base suffix adapterFallback : string)
    (manifest : list loc) (h : store) : store :=
  alterAll (rewriteEntry base suffix adapterFallback) manifest h.

(** Lines 163-165 *)
Definition fallbackName (s : SpaOption E) (adapterFallback : string) : string :=
  match s with
  | SpaObj o =>
      if truthy (fallbackMapping o)
      then default adapterFallback (fallbackMapping o)
      else adapterFallback
  | SpaBool _ => adapterFallback
  end.

(** Lines 166-178: the entry pushed in SPA mode, once awaited. *)
Definition fallbackEntry (outDir : string) (s : SpaOption E)
    (adapterFallback : string) : Settled E ManifestEntry :=
  let name := fallbackName s adapterFallback in
  match s with
  | SpaObj {| fallbackRevision := Some supplied |} =>
      match supplied with
      | Resolved rev => Resolved {| url := name; revision := rev; size := 0 |}
      | Rejected err => Rejected err
      end
  | _ => buildManifestEntry name (resolve host outDir "client/_app/version.json")
  end.

(** Lines 162-179: the manifest array and the store after the SPA step. *)
Definition pushFallback (outDir : string) (options : option (KitOptions E))
    (manifest : list loc) (h : store) : Settled E (store * list loc) :=
  match optSpa options, optAdapterFallback options with
  | Some s, Some adapterFallback =>
      if spaTruthy (Some s) && truthy (Some adapterFallback) then
        match fallbackEntry outDir s adapterFallback with
        | Resolved e =>
            let '(h, l) := alloc h e in Resolved (h, push manifest l)
        | Rejected err => Rejected err
        end
      else Resolved (h, manifest)
  | _, _ => Resolved (h, manifest)
  end.

(** Lines 181-184 *)
Definition dropWebManifest (webManifestName : option string)
    (h : store) (manifest : list loc) : list loc :=
  if negb (truthy webManifestName) then manifest
  else List.filter
         (fun l => negb (bool_decide (urlAt h l = webManifestName))) manifest.

(** Lines 102-185: the transform returned by [createManifestTransform].
    It answers the store as the call leaves it, and either the [manifest]
    array of the returned object or the reason of the rejection. *)
Definition createManifestTransform (base outDir : string)
    (webManifestName : option string) (options : option (KitOptions E))
    (entries : list loc) (h : store) : store * Settled E (list loc) :=
  let suffix := suffixOf options in
  let '(adapterFallback, excludeFallback) := fallbackOf options in
  let manifest := List.filter (keepEntry excludeFallback h) entries in
  let h := mapEntries base suffix adapterFallback manifest h in
  match pushFallback outDir options manifest h with
  | Resolved (h, manifest) =>
      (h, Resolved (dropWebManifest webManifestName h manifest))
  | Rejected err => (h, Rejected err)
  end.

End Transform.

(** ** The options of the plugin and their configuration

    [configureSvelteKitOptions] (lines 7-94) reads the kit options and the
    resolved Vite configuration, and assigns to the fields of the plugin
    options object and of its [workbox] or [injectManifest] object. *)

(** [s[i]]: the code unit at a position, [undefined] outside the string. *)
Definition charAt (s : string) (i : Z) : option ascii :=
  if i <? 0 then None else String.get (Z.to_nat i) s.

(** What a call that may throw leaves: its value, or the exception. *)
Inductive Completion (E A : Type) : Type :=
| Normal (a : A)
| Throw (err : E).
Arguments Normal {E A} a.
Arguments Throw {E A} err.

Module Vite.
(** Modelled from the spec: the fields of Vite's [ResolvedConfig] that are
    read; [base] may be nullish ([viteOptions.base ?? '/']). *)
Record ResolvedConfig : Type := mkConfig {
  base : option string;
  root : string;
}.
End Vite.

Module Kit.
(** Modelled from the spec: the fields of the [KitOptions] of [./types] read
    by [configureSvelteKitOptions], beside those the manifest transform
    reads; the two records stand for the one [kit] object. *)
Record Paths : Type := mkPaths {
  base : option string;
  outDir : option string;
  assets : option string;
  appDir : option string;
  includeVersionFile : option bool;
}.
End Kit.

Module Integration.
(** The object assigned to [options.pwaAssets.integration] (lines 88-92). *)
Record t : Type := mk {
  baseUrl : string;
  publicDir : string;
  outDir : string;
}.
End Integration.

(** A manifest transform of the configuration: one the caller supplied, or
    the closure [createManifestTransform(base, outDir, webManifestName, kit)]
    with the values it captures. *)
Inductive Transform (E U : Type) : Type :=
| UserTransform (u : U)
| KitTransform (base outDir : string) (webManifestName : option string)
    (kit : KitOptions E).
Arguments UserTransform {E U} u.
Arguments KitTransform {E U} base outDir webManifestName kit.

(** Modelled from the spec: the fields of workbox-build's options object
    that are read or written.  For the two fields tested with [in], the
    outer [option] says whether the key is there and the inner one holds its
    value, nullish or not; a [RegExp] is a value of [R]. *)
Record GlobConfig (E U R : Type) : Type := mkGlobConfig {
  navigateFallback : option (option string);
  globDirectory : option string;
  modifyURLPrefix : option (list (string * string));
  globPatterns : option (list string);
  globIgnores : option (list string);
  dontCacheBustURLsMatching : option (option R);
  manifestTransforms : option (list (Transform E U));
}.
Arguments mkGlobConfig {E U R} _ _ _ _ _ _ _.
Arguments navigateFallback {E U R} _.
Arguments globDirectory {E U R} _.
Arguments modifyURLPrefix {E U R} _.
Arguments globPatterns {E U R} _.
Arguments globIgnores {E U R} _.
Arguments dontCacheBustURLsMatching {E U R} _.
Arguments manifestTransforms {E U R} _.

(** The empty object [{}] *)
Definition emptyConfig {E U R} : GlobConfig E U R :=
  mkGlobConfig None None None None None None None.

(** Modelled from the spec: the fields of vite-plugin-pwa's options object
    that are read or written; [pwaAssets], when there, is an object whose
    [integration] field is assigned. *)
Record PwaOptions (E U R : Type) : Type := mkPwaOptions {
  includeManifestIcons : option bool;
  strategies : option string;
  srcDir : option string;
  filename : option string;
  injectManifest : option (GlobConfig E U R);
  workbox : option (GlobConfig E U R);
  manifestFilename : option string;
  pwaAssets : option (option Integration.t);
}.
Arguments mkPwaOptions {E U R} _ _ _ _ _ _ _ _.
Arguments includeManifestIcons {E U R} _.
Arguments strategies {E U R} _.
Arguments srcDir {E U R} _.
Arguments filename {E U R} _.
Arguments injectManifest {E U R} _.
Arguments workbox {E U R} _.
Arguments manifestFilename {E U R} _.
Arguments pwaAssets {E U R} _.

(** The [config] object of the options: [options.injectManifest] under the
    [injectManifest] strategy, [options.workbox] otherwise. *)
Definition activeConfig {E U R} (options : PwaOptions E U R)
    : option (GlobConfig E U R) :=
  if bool_decide (strategies options = Some "injectManifest")
  then injectManifest options else workbox options.

Section Configure.

Context {E U R : Type}.

(** [path.resolve] and [new RegExp(source)], which throws on a source that
    is no regular expression. *)
Variable pathResolve : string -> string -> string.
Variable newRegExp : string -> Completion E R.

(** Lines 57-61: the directory of the built assets, without its leading
    slash and with a trailing one. *)
Definition buildAssetsDirOf (appDir : option string) : string :=
  let buildAssetsDir := default "_app/" appDir in
  let buildAssetsDir :=
    if bool_decide (charAt buildAssetsDir 0 = Some "/"%char)
    then slice buildAssetsDir 1 None else buildAssetsDir in
  if bool_decide (charAt buildAssetsDir (len buildAssetsDir - 1) = Some "/"%char)
  then buildAssetsDir else buildAssetsDir +:+ "/".

(** Truthiness of an optional boolean, and of an optional object. *)
Definition truthyBool (o : option bool) : bool := default false o.
Definition isSome {A} (o : option A) : bool :=
  match o with Some _ => true | None => false end.

(** Lines 24-25 *)
Definition setIncludeManifestIcons (options : PwaOptions E U R)
    : PwaOptions E U R :=
  if negb (isSome (includeManifestIcons options))
  then mkPwaOptions (Some false) (strategies options) (srcDir options)
         (filename options) (injectManifest options) (workbox options)
         (manifestFilename options) (pwaAssets options)
  else options.

(** Lines 33-50: the strategy branch.  It answers the options with the
    defaults of the strategy, and the [config] object, which is the
    [injectManifest] or the [workbox] object of those options. *)
Definition selectConfig (adapterFallback : option string) (base : string)
    (options : PwaOptions E U R) : PwaOptions E U R * GlobConfig E U R :=
  if bool_decide (strategies options = Some "injectManifest") then
    let srcDir' := if negb (truthy (srcDir options)) then Some "src"
                   else srcDir options in
    let filename' := if negb (truthy (filename options))
                     then Some "service-worker.js" else filename options in
    let config := default emptyConfig (injectManifest options) in
    (mkPwaOptions (includeManifestIcons options) (strategies options)
       srcDir' filename' (Some config) (workbox options)
       (manifestFilename options) (pwaAssets options),
     config)
  else
    let config := default emptyConfig (workbox options) in
    let config :=
      if negb (isSome (navigateFallback config))
      then mkGlobConfig (Some (Some (default base adapterFallback)))
             (globDirectory config) (modifyURLPrefix config)
             (globPatterns config) (globIgnores config)
             (dontCacheBustURLsMatching config) (manifestTransforms config)
      else config in
    (mkPwaOptions (includeManifestIcons options) (strategies options)
       (srcDir options) (filename options) (injectManifest options)
       (Some config) (manifestFilename options) (pwaAssets options),
     config).

(** The assignment to a field of [config] reaches the options object that
    holds it. *)
Definition storeConfig (options : PwaOptions E U R)
    (config : GlobConfig E U R) : PwaOptions E U R :=
  if bool_decide (strategies options = Some "injectManifest") then
    mkPwaOptions (includeManifestIcons options) (strategies options)
      (srcDir options) (filename options) (Some config) (workbox options)
      (manifestFilename options) (pwaAssets options)
  else
    mkPwaOptions (includeManifestIcons options) (strategies options)
      (srcDir options) (filename options) (injectManifest options)
      (Some config) (manifestFilename options) (pwaAssets options).

(** Lines 54-55 *)
Definition setGlobDirectory (outDir : string) (config : GlobConfig E U R)
    : GlobConfig E U R :=
  if negb (truthy (globDirectory config))
  then mkGlobConfig (navigateFallback config) (Some (outDir +:+ "/output"))
         (modifyURLPrefix config) (globPatterns config) (globIgnores config)
         (dontCacheBustURLsMatching config) (manifestTransforms config)
  else config.

(** Lines 63-67 *)
Definition setGlobPatterns (buildAssetsDir : string)
    (includeVersionFile : option bool) (config : GlobConfig E U R)
    : GlobConfig E U R :=
  if negb (isSome (modifyURLPrefix config)) then
    let patterns := buildGlobPatterns (globPatterns config) in
    let patterns :=
      if truthyBool includeVersionFile
      then push patterns ("client/" +:+ buildAssetsDir +:+ "version.json")
      else patterns in
    mkGlobConfig (navigateFallback config) (globDirectory config)
      (modifyURLPrefix config) (Some patterns) (globIgnores config)
      (dontCacheBustURLsMatching config) (manifestTransforms config)
  else config.

(** Line 70 *)
Definition setGlobIgnores (config : GlobConfig E U R) : GlobConfig E U R :=
  mkGlobConfig (navigateFallback config) (globDirectory config)
    (modifyURLPrefix config) (globPatterns config)
    (Some (buildGlobIgnores (globIgnores config)))
    (dontCacheBustURLsMatching config) (manifestTransforms config).

(** Lines 54-70 together: the glob settings of [config]. *)
Definition setGlobs (paths : Kit.Paths) (outDir : string)
    (config : GlobConfig E U R) : GlobConfig E U R :=
  setGlobIgnores
    (setGlobPatterns (buildAssetsDirOf (Kit.appDir paths))
       (Kit.includeVersionFile paths) (setGlobDirectory outDir config)).

(** Lines 73-74; the constructor of the regular expression may throw. *)
Definition setDontCacheBust (buildAssetsDir : string)
    (config : GlobConfig E U R) : Completion E (GlobConfig E U R) :=
  if negb (isSome (dontCacheBustURLsMatching config)) then
    match newRegExp (buildAssetsDir +:+ "immutable/") with
    | Normal re =>
        Normal (mkGlobConfig (navigateFallback config) (globDirectory config)
                  (modifyURLPrefix config) (globPatterns config)
                  (globIgnores config) (Some (Some re))
                  (manifestTransforms config))
    | Throw err => Throw err
    end
  else Normal config.

(** Lines 76-85 *)
Definition setManifestTransforms (base : string)
    (webManifestName : option string) (kit : KitOptions E)
    (config : GlobConfig E U R) : GlobConfig E U R :=
  if negb (isSome (manifestTransforms config)) then
    mkGlobConfig (navigateFallback config) (globDirectory config)
      (modifyURLPrefix config) (globPatterns config) (globIgnores config)
      (dontCacheBustURLsMatching config)
      (Some [KitTransform base (default "" (globDirectory config))
               webManifestName kit])
  else config.

(** Lines 87-93 *)
Definition setIntegration (base root assets outDir : string)
    (options : PwaOptions E U R) : PwaOptions E U R :=
  if isSome (pwaAssets options) then
    mkPwaOptions (includeManifestIcons options) (strategies options)
      (srcDir options) (filename options) (injectManifest options)
      (workbox options) (manifestFilename options)
      (Some (Some {| Integration.baseUrl := base;
                     Integration.publicDir := pathResolve root assets;
                     Integration.outDir := pathResolve outDir "output/client" |}))
  else options.

(** Lines 12-17: the destructuring of [kit], with its defaults. *)
Definition baseOf (paths : Kit.Paths) (viteOptions : Vite.ResolvedConfig)
    : string :=
  default (default "/" (Vite.base viteOptions)) (Kit.base paths).
Definition outDirOf (paths : Kit.Paths) (viteOptions : Vite.ResolvedConfig)
    : string :=
  default (Vite.root viteOptions +:+ "/.svelte-kit") (Kit.outDir paths).
Definition assetsOf (paths : Kit.Paths) : string :=
  default "static" (Kit.assets paths).

(** Lines 80-82 *)
Definition webManifestNameOf (options : PwaOptions E U R) : option string :=
  if bool_decide (strategies options = Some "injectManifest") then None
  else Some (default "manifest.webmanifest" (manifestFilename options)).

(** Lines 7-94.  The function returns nothing: it answers the options
    object as the call leaves it, and the exception when it throws. *)
Definition configureSvelteKitOptions (kit : KitOptions E) (paths : Kit.Paths)
    (viteOptions : Vite.ResolvedConfig) (options : PwaOptions E U R)
    : PwaOptions E U R * option E :=
  let base := baseOf paths viteOptions in
  let outDir := outDirOf paths viteOptions in
  let assets := assetsOf paths in
  let options := setIncludeManifestIcons options in
  let '(options, config) := selectConfig (adapterFallback kit) base options in
  let config := setGlobDirectory outDir config in
  let buildAssetsDir := buildAssetsDirOf (Kit.appDir paths) in
  let config :=
    setGlobPatterns buildAssetsDir (Kit.includeVersionFile paths) config in
  let config := setGlobIgnores config in
  match setDontCacheBust buildAssetsDir config with
  | Throw err => (storeConfig options config, Some err)
  | Normal config =>
      let config :=
        setManifestTransforms base (webManifestNameOf options) kit config in
      (setIntegration base (Vite.root viteOptions) assets outDir
         (storeConfig options config), None)
  end.

(** The object assigned to [options.pwaAssets.integration]. *)
Definition integrationOf (paths : Kit.Paths)
    (viteOptions : Vite.ResolvedConfig) : Integration.t :=
  {| Integration.baseUrl := baseOf paths viteOptions;
     Integration.publicDir :=
       pathResolve (Vite.root viteOptions) (assetsOf paths);
     Integration.outDir :=
       pathResolve (outDirOf paths viteOptions) "output/client" |}.

(** Options that need nothing more: every default is there, and the glob
    lists pass the tests of the builders. *)
Definition configured (paths : Kit.Paths) (viteOptions : Vite.ResolvedConfig)
    (options : PwaOptions E U R) : Prop :=
  isSome (includeManifestIcons options) = true
  /\ (pwaAssets options = None
      \/ pwaAssets options = Some (Some (integrationOf paths viteOptions)))
  /\ exists config,
      activeConfig options = Some config
      /\ (strategies options = Some "injectManifest" ->
          truthy (srcDir options) = true /\ truthy (filename options) = true)
      /\ (strategies options <> Some "injectManifest" ->
          isSome (navigateFallback config) = true)
      /\ truthy (globDirectory config) = true
      /\ (isSome (modifyURLPrefix config) = false ->
          exists patterns,
            globPatterns config = Some patterns
            /\ buildGlobPatterns (Some patterns) = patterns)
      /\ (exists ignores,
             globIgnores config = Some ignores
             /\ buildGlobIgnores (Some ignores) = ignores)
      /\ isSome (dontCacheBustURLsMatching config) = true
      /\ isSome (manifestTransforms config) = true.

End Configure.

(** Calling the closure made by [createManifestTransform]; [kit] is the
    [options] argument of line 100. *)
Definition callKitTransform {E C H U} (host : Host E C H) (t : Transform E U)
    (entries : list loc) (h : store) : option (store * Settled E (list loc)) :=
  match t with
  | KitTransform base outDir webManifestName kit =>
      Some (createManifestTransform host base outDir webManifestName
              (Some kit) entries h)
  | UserTransform _ => None
  end.

(** ** Options to run the configuration on

    [path.resolve] joins with a slash; a regular expression is its source,
    refused when it holds an opening parenthesis. *)

Module SampleConfig.

Definition pathResolve (dir file : string) : string := dir +:+ "/" +:+ file.

Definition newRegExp (source : string) : Completion string string :=
  if includes source "(" then Throw "SyntaxError" else Normal source.

Definition kit : KitOptions string := mkKit (Some "200.html") None None.

Definition paths : Kit.Paths := Kit.mkPaths None None None (Some "/_app") None.

Definition versioned : Kit.Paths :=
  Kit.mkPaths None None None (Some "/_app") (Some true).

Definition viteOptions : Vite.ResolvedConfig := Vite.mkConfig (Some "/") "/site".

Definition options : PwaOptions string unit string :=
  mkPwaOptions None None None None None None None None.

End SampleConfig.

(** Every reference of an array points to an object of the store. *)
Definition liveRefs (h : store) (refs : list loc) : Prop :=
  Forall (fun l => (l < length h)%nat) refs.

(** ** A host to run the transform on

    Errors and chunks are strings, the hash is the list of the chunks fed to
    it, its digest their concatenation; one file exists. *)

Module Sample.

Definition versionFile : string := "/out/client/_app/version.json".

Definition host : Host string string (list string) :=
  {| createHash := [];
     update := fun cHash chunk => (cHash ++ [chunk])%list;
     digestHex := fun cHash => String.concat "" cHash;
     createReadStream := fun path =>
       if String.eqb path versionFile then OnData "{}" OnEnd
       else OnError "ENOENT";
     resolve := fun dir file => dir +:+ "/" +:+ file |}.

Definition kit (adapterFallback : option string)
    (spa : option (SpaOption string)) : option (KitOptions string) :=
  Some (mkKit adapterFallback None spa).

End Sample.

(** * Properties *)

(** ** Facts on the string primitives *)

Section StringFacts.

Implicit Types a b p r s : string.

Lemma string_app_cons c a b : String c a +:+ b = String c (a +:+ b).
Proof. reflexivity. Qed.

Lemma string_app_empty_l a : "" +:+ a = a.
Proof. reflexivity. Qed.

Lemma prefix_cons c d p s :
  String.prefix (String c p) (String d s)
  = if ascii_dec c d then String.prefix p s else false.
Proof. reflexivity. Qed.

Lemma string_length_app a b :
  String.length (a +:+ b) = (String.length a + String.length b)%nat.
Proof.
  induction a as [|c a IH]; [reflexivity|].
  rewrite string_app_cons. simpl. now rewrite IH.
Qed.

Lemma len_app a b : len (a +:+ b) = len a + len b.
Proof. unfold len. rewrite string_length_app. lia. Qed.

Lemma len_nonneg s : 0 <= len s.
Proof. unfold len. lia. Qed.

Lemma string_app_empty_r a : a +:+ "" = a.
Proof.
  induction a as [|c a IH]; [reflexivity|]. now rewrite string_app_cons, IH.
Qed.

Lemma string_app_assoc a b r : (a +:+ b) +:+ r = a +:+ (b +:+ r).
Proof.
  induction a as [|c a IH]; [reflexivity|]. now rewrite !string_app_cons, IH.
Qed.

Lemma substring_whole s : String.substring 0 (String.length s) s = s.
Proof. induction s as [|c s IH]; simpl; [reflexivity | now rewrite IH]. Qed.

Lemma substring_take_app a b :
  String.substring 0 (String.length a) (a +:+ b) = a.
Proof.
  induction a as [|c a IH]; [now destruct b|].
  rewrite string_app_cons. simpl. now rewrite IH.
Qed.

Lemma substring_drop_app a b :
  String.substring (String.length a) (String.length b) (a +:+ b) = b.
Proof.
  induction a as [|c a IH]; [apply substring_whole|].
  rewrite string_app_cons. simpl. exact IH.
Qed.

Lemma substring_split s (n : nat) :
  (n <= String.length s)%nat ->
  s = String.substring 0 n s +:+ String.substring n (String.length s - n) s.
Proof.
  revert n. induction s as [|c s IH]; intros [|n] Hn; simpl in *;
    try reflexivity; try lia.
  - rewrite string_app_empty_l. f_equal. symmetry. apply substring_whole.
  - rewrite string_app_cons. f_equal. apply (IH n). lia.
Qed.

Lemma between_take_app a b : between 0 (len a) (a +:+ b) = a.
Proof.
  unfold between, len. rewrite Z.sub_0_r, Nat2Z.id. apply substring_take_app.
Qed.

Lemma between_drop_app a b : between (len a) (len (a +:+ b)) (a +:+ b) = b.
Proof.
  unfold between. rewrite len_app.
  replace (len a + len b - len a) with (len b) by lia.
  unfold len. rewrite !Nat2Z.id. apply substring_drop_app.
Qed.

(** [startsWith] against concatenation. *)
Lemma startsWith_app p r : startsWith (p +:+ r) p = true.
Proof.
  unfold startsWith. apply String.prefix_correct. apply substring_take_app.
Qed.

Lemma startsWith_inv s p :
  startsWith s p = true -> exists r, s = p +:+ r.
Proof.
  unfold startsWith. revert s.
  induction p as [|c p IH]; intros s Hp.
  - now exists s.
  - destruct s as [|d s]; [discriminate|].
    rewrite prefix_cons in Hp.
    destruct (ascii_dec c d) as [->|]; [|discriminate].
    destruct (IH s Hp) as [r ->]. exists r. now rewrite string_app_cons.
Qed.

Lemma rel_index_inrange k n : 0 <= k <= n -> rel_index k n = k.
Proof.
  intros Hk. unfold rel_index.
  destruct (Z.ltb_spec k 0); lia.
Qed.

Lemma clamp_index_inrange k n : 0 <= k <= n -> clamp_index k n = k.
Proof. intros Hk. unfold clamp_index. lia. Qed.

Lemma len_zero s : len s = 0 -> s = "".
Proof. destruct s; [reflexivity|]. unfold len. simpl. lia. Qed.

(** [s.slice(n)] removes a prefix of [n] code units. *)
Lemma slice_drop_app p r : slice (p +:+ r) (len p) None = r.
Proof.
  pose proof (len_nonneg p) as Hp. pose proof (len_nonneg r) as Hr.
  unfold slice. rewrite rel_index_inrange by (rewrite len_app; lia).
  destruct (Z.leb_spec (len (p +:+ r)) (len p)) as [Hle|Hlt].
  - rewrite len_app in Hle. symmetry. apply len_zero. lia.
  - apply between_drop_app.
Qed.

(** [s.slice(0, k)] and [s.substring(0, k)] keep a prefix of [k] code
    units. *)
Lemma slice_take_app a b : slice (a +:+ b) 0 (Some (len a)) = a.
Proof.
  pose proof (len_nonneg a) as Ha. pose proof (len_nonneg b) as Hb.
  unfold slice. rewrite !rel_index_inrange by (rewrite len_app; lia).
  destruct (Z.leb_spec (len a) 0) as [Hle|Hlt].
  - symmetry. apply len_zero. lia.
  - apply between_take_app.
Qed.

Lemma substring_take_app_js a b : substring (a +:+ b) 0 (Some (len a)) = a.
Proof.
  pose proof (len_nonneg a) as Ha. pose proof (len_nonneg b) as Hb.
  unfold substring. rewrite !clamp_index_inrange by (rewrite len_app; lia).
  rewrite Z.min_l, Z.max_r by lia. apply between_take_app.
Qed.

(** [endsWith] against concatenation. *)
Lemma endsWith_app a p : endsWith (a +:+ p) p = true.
Proof.
  unfold endsWith. pose proof (len_nonneg a) as Ha.
  replace (len (a +:+ p) - len p) with (len a) by (rewrite len_app; lia).
  destruct (Z.ltb_spec (len a) 0) as [?|_]; [lia|].
  rewrite between_drop_app. apply String.eqb_refl.
Qed.

Lemma endsWith_inv s p : endsWith s p = true -> exists a, s = a +:+ p.
Proof.
  unfold endsWith.
  destruct (Z.ltb_spec (len s - len p) 0) as [?|Hge]; [discriminate|].
  intros Heq. apply String.eqb_eq in Heq.
  set (n := (String.length s - String.length p)%nat).
  exists (String.substring 0 n s).
  assert (between (len s - len p) (len s) s
          = String.substring n (String.length s - n) s) as Hb.
  { unfold between, len in *. f_equal; lia. }
  assert (n <= String.length s)%nat as Hn by lia.
  pose proof (substring_split s n Hn) as Hs.
  rewrite <- Hb, Heq in Hs. exact Hs.
Qed.

End StringFacts.

(** ** Facts on [lastIndexOf] and on the pretty URL *)

Section PrettyFacts.

Implicit Types a b p r s u : string.

Lemma lastIndexOf_go_cons p c s i acc :
  lastIndexOf_go p (String c s) i acc
  = lastIndexOf_go p s (i + 1)
      (if String.prefix p (String c s) then i else acc).
Proof. reflexivity. Qed.

(** Scanning a concatenation reaches its second part with the position
    advanced by the length of the first. *)
Lemma lastIndexOf_go_app p a s i acc :
  exists acc', lastIndexOf_go p (a +:+ s) i acc
               = lastIndexOf_go p s (i + len a) acc'.
Proof.
  revert i acc. induction a as [|c a IH]; intros i acc.
  - exists acc. rewrite string_app_empty_l. f_equal. unfold len. simpl. lia.
  - rewrite string_app_cons, lastIndexOf_go_cons.
    destruct (IH (i + 1) (if String.prefix p (String c (a +:+ s)) then i else acc))
      as [acc' ->].
    exists acc'. f_equal. unfold len. simpl String.length. lia.
Qed.

Lemma lastIndexOf_slash_index a :
  lastIndexOf (a +:+ "/index.html") "/" = len a.
Proof.
  unfold lastIndexOf.
  destruct (lastIndexOf_go_app "/" a "/index.html" 0 (-1)) as [acc' ->].
  reflexivity.
Qed.

Lemma lastIndexOf_dot_html a : lastIndexOf (a +:+ ".html") "." = len a.
Proof.
  unfold lastIndexOf.
  destruct (lastIndexOf_go_app "." a ".html" 0 (-1)) as [acc' ->].
  reflexivity.
Qed.

Lemma app_neq_by_len a p s :
  (String.length s < String.length p)%nat -> a +:+ p <> s.
Proof.
  intros Hlen Heq. apply (f_equal String.length) in Heq.
  rewrite string_length_app in Heq. lia.
Qed.

Lemma prettyUrl_root base suffix : prettyUrl base suffix "index.html" = base.
Proof. reflexivity. Qed.

(** [abc/index.html -> abc/?] *)
Lemma prettyUrl_dir_index base suffix a :
  prettyUrl base suffix (a +:+ "/index.html") = a +:+ suffix.
Proof.
  unfold prettyUrl.
  destruct (String.eqb_spec (a +:+ "/index.html") "index.html") as [Heq|_].
  { exfalso. revert Heq. apply app_neq_by_len. simpl. lia. }
  rewrite lastIndexOf_slash_index, endsWith_app.
  pose proof (len_nonneg a).
  destruct (Z.gtb_spec (len a) (-1)); [|lia].
  now rewrite slice_take_app.
Qed.

(** [abc/def.html -> abc/def/?] and [xxx.html -> xxx/?] *)
Lemma prettyUrl_page base suffix a :
  a +:+ ".html" <> "index.html" ->
  endsWith (a +:+ ".html") "/index.html" = false ->
  prettyUrl base suffix (a +:+ ".html") = a +:+ suffix.
Proof.
  intros Hroot Hdir. unfold prettyUrl.
  destruct (String.eqb_spec (a +:+ ".html") "index.html") as [Heq|_];
    [contradiction|].
  rewrite Hdir, lastIndexOf_dot_html, substring_take_app_js.
  now destruct (_ >? _).
Qed.

(** Removing the leading slash keeps the extension. *)
Lemma stripLeadingSlash_html r :
  endsWith r ".html" = true -> endsWith (stripLeadingSlash r) ".html" = true.
Proof.
  intros Hr. unfold stripLeadingSlash.
  destruct (startsWith r "/") eqn:Hs; [|exact Hr].
  apply startsWith_inv in Hs as [r' ->].
  change 1 with (len "/"). rewrite slice_drop_app.
  apply endsWith_inv in Hr as [a Ha].
  destruct a as [|c a]; [discriminate|].
  rewrite !string_app_cons, string_app_empty_l in Ha. injection Ha as _ ->.
  apply endsWith_app.
Qed.

(** A pretty URL other than the root ends as its suffix does. *)
Lemma prettyUrl_suffix base suffix u :
  endsWith u ".html" = true -> u <> "index.html" ->
  exists a, prettyUrl base suffix u = a +:+ suffix
            /\ (u = a +:+ "/index.html"
                \/ (u = a +:+ ".html" /\ endsWith u "/index.html" = false)).
Proof.
  intros Hu Hroot.
  destruct (endsWith u "/index.html") eqn:Hdir.
  - apply endsWith_inv in Hdir as [a ->]. exists a.
    split; [apply prettyUrl_dir_index | now left].
  - apply endsWith_inv in Hu as [a ->]. exists a.
    split; [now apply prettyUrl_page | now right].
Qed.

End PrettyFacts.

(** ** Facts on the store *)

Section StoreFacts.

Variable f : ManifestEntry -> ManifestEntry.

Lemma alterAll_cons x refs h :
  alterAll f (x :: refs) h = alterAll f refs (alter f x h).
Proof. reflexivity. Qed.

Lemma alterAll_length refs h : length (alterAll f refs h) = length h.
Proof.
  revert h. induction refs as [|x refs IH]; intros h; [reflexivity|].
  now rewrite alterAll_cons, IH, length_alter.
Qed.

(** An object is altered once per occurrence of its reference. *)
Lemma alterAll_lookup refs h l :
  alterAll f refs h !! l
  = Nat.iter (count_occ Nat.eq_dec refs l) f <$> h !! l.
Proof.
  revert h. induction refs as [|x refs IH]; intros h.
  - simpl. now destruct (h !! l).
  - rewrite alterAll_cons, IH. simpl count_occ.
    destruct (Nat.eq_dec x l) as [->|Hne].
    + rewrite list_lookup_alter_eq. destruct (h !! l) as [e|]; [|reflexivity].
      simpl. f_equal. symmetry. apply Nat.iter_succ_r.
    + now rewrite list_lookup_alter_ne.
Qed.

Lemma alterAll_lookup_once refs h l :
  NoDup refs -> In l refs -> alterAll f refs h !! l = f <$> h !! l.
Proof.
  intros Hnd Hin. rewrite alterAll_lookup.
  apply NoDup_ListNoDup in Hnd.
  pose proof (proj1 (List.NoDup_count_occ Nat.eq_dec refs) Hnd l) as Hle.
  pose proof (proj1 (List.count_occ_In Nat.eq_dec refs l) Hin) as Hge.
  replace (count_occ Nat.eq_dec refs l) with 1%nat by lia.
  reflexivity.
Qed.

(** What [f] keeps, any number of alterations keeps. *)
Lemma alterAll_preserved {A} (field : ManifestEntry -> A) refs h l :
  (forall e, field (f e) = field e) ->
  field <$> alterAll f refs h !! l = field <$> h !! l.
Proof.
  intros Hf. rewrite alterAll_lookup.
  destruct (h !! l) as [e|]; [|reflexivity]. simpl. f_equal.
  induction (count_occ Nat.eq_dec refs l) as [|n IH]; [reflexivity|].
  simpl. now rewrite Hf.
Qed.

End StoreFacts.

(** ** The prefix dispatch *)

Lemma resolvePrefix_fallback adapterFallback :
  resolvePrefix adapterFallback defaultAdapterFallback = adapterFallback.
Proof. reflexivity. Qed.

Lemma slice_prefix url p n :
  startsWith url p = true -> n = len p -> url = p +:+ slice url n None.
Proof.
  intros Hp ->. apply startsWith_inv in Hp as [r ->].
  now rewrite slice_drop_app.
Qed.

(** The prefix dispatch on its own: the first rule that matches decides,
    and what it removes is exactly the prefix. *)
Lemma resolvePrefix_first_match (adapterFallback url : string) :
  (startsWith url "client/" = true ->
     resolvePrefix adapterFallback url = slice url 7 None
     /\ url = "client/" +:+ resolvePrefix adapterFallback url)
  /\ (startsWith url "client/" = false ->
      startsWith url "prerendered/dependencies/" = true ->
     resolvePrefix adapterFallback url = slice url 25 None
     /\ url = "prerendered/dependencies/" +:+ resolvePrefix adapterFallback url)
  /\ (startsWith url "client/" = false ->
      startsWith url "prerendered/dependencies/" = false ->
      startsWith url "prerendered/pages/" = true ->
     resolvePrefix adapterFallback url = slice url 18 None
     /\ url = "prerendered/pages/" +:+ resolvePrefix adapterFallback url)
  /\ (startsWith url "client/" = false ->
      startsWith url "prerendered/dependencies/" = false ->
      startsWith url "prerendered/pages/" = false ->
      url = "prerendered/fallback.html" ->
     resolvePrefix adapterFallback url = adapterFallback)
  /\ len "client/" = 7
  /\ len "prerendered/dependencies/" = 25
  /\ len "prerendered/pages/" = 18.
Proof.
  unfold resolvePrefix.
  split; [intros Hc; rewrite Hc; split;
          [reflexivity | now apply slice_prefix]|].
  split; [intros Hc Hd; rewrite Hc, Hd; split;
          [reflexivity | now apply slice_prefix]|].
  split; [intros Hc Hd Hp; rewrite Hc, Hd, Hp; split;
          [reflexivity | now apply slice_prefix]|].
  split; [intros _ _ _ ->; reflexivity|].
  repeat split.
Qed.

(** A client asset whose remainder looks like a prerendered page keeps that
    remainder: the page rule is not applied after the client rule. *)
Lemma resolvePrefix_first_match_witness :
  resolvePrefix "200.html" "client/prerendered/pages/a.js"
    = slice "client/prerendered/pages/a.js" 7 None
  /\ "client/prerendered/pages/a.js"
     = "client/" +:+ resolvePrefix "200.html" "client/prerendered/pages/a.js".
Proof.
  apply (proj1 (resolvePrefix_first_match "200.html" "client/prerendered/pages/a.js")).
  reflexivity.
Defined.

(** ** Pretty URLs and the trailing slash *)

Lemma suffixOf_always {E} (options : option (KitOptions E)) :
  optTrailingSlash options = Some "always" -> suffixOf options = "/".
Proof. intros Hts. unfold suffixOf. now rewrite bool_decide_eq_true_2. Qed.

Lemma suffixOf_default {E} (options : option (KitOptions E)) :
  optTrailingSlash options <> Some "always" -> suffixOf options = "".
Proof. intros Hts. unfold suffixOf. now rewrite bool_decide_eq_false_2. Qed.

Lemma rewriteUrl_html base suffix adapterFallback url :
  endsWith (resolvePrefix adapterFallback url) ".html" = true ->
  rewriteUrl base suffix adapterFallback url
  = prettyUrl base suffix (stripLeadingSlash (resolvePrefix adapterFallback url)).
Proof. intros Hr. unfold rewriteUrl. now rewrite Hr. Qed.

Lemma not_endsWith_slash a p :
  endsWith (a +:+ p) ("/" +:+ p) = false -> endsWith a "/" = false.
Proof.
  intros Hno. destruct (endsWith a "/") eqn:Ha; [|reflexivity].
  apply endsWith_inv in Ha as [a' ->].
  now rewrite string_app_assoc, endsWith_app in Hno.
Qed.

(** C3, the default mode put to the test: a page whose file name is the bare
    extension, and a directory index behind a doubled slash, get a url that
    ends in a slash although no trailing slash was asked for; so does the
    root document when the base ends in one. *)
Lemma default_mode_trailing_slash_counterexample :
  optTrailingSlash (E := string) None <> Some "always"
  /\ endsWith (resolvePrefix "200.html" "prerendered/pages/a/.html") ".html" = true
  /\ rewriteUrl "/" (suffixOf (E := string) None) "200.html"
       "prerendered/pages/a/.html" = "a/"
  /\ rewriteUrl "/" (suffixOf (E := string) None) "200.html"
       "prerendered/pages/a//index.html" = "a/"
  /\ rewriteUrl "/" (suffixOf (E := string) None) "200.html"
       "prerendered/pages/index.html" = "/"
  /\ endsWith "a/" "/" = true.
Proof. repeat split. discriminate. Qed.

(** C3, amended: for an entry whose resolved url ends in [.html], the root
    [index.html] maps to the base; with [trailingSlash] set to [always] every
    other such url ends in a slash; otherwise no other such url ends in a
    slash, provided the resolved path ends neither in [//index.html] nor in
    [/.html]. *)
Theorem rewriteUrl_html_trailing_slash {E} (options : option (KitOptions E))
    (base adapterFallback url : string) :
  let u := stripLeadingSlash (resolvePrefix adapterFallback url) in
  let out := rewriteUrl base (suffixOf options) adapterFallback url in
  endsWith (resolvePrefix adapterFallback url) ".html" = true ->
  (u = "index.html" -> out = base)
  /\ (u <> "index.html" -> optTrailingSlash options = Some "always" ->
      endsWith out "/" = true)
  /\ (u <> "index.html" -> optTrailingSlash options <> Some "always" ->
      endsWith u "//index.html" = false -> endsWith u "/.html" = false ->
      endsWith out "/" = false).
Proof.
  intros u out Hr. subst out. rewrite rewriteUrl_html by exact Hr. fold u.
  pose proof (stripLeadingSlash_html _ Hr) as Hu. fold u in Hu.
  split; [|split].
  - intros ->. apply prettyUrl_root.
  - intros Hroot Hts. rewrite (suffixOf_always _ Hts).
    destruct (prettyUrl_suffix base "/" u Hu Hroot) as (a & -> & _).
    apply endsWith_app.
  - intros Hroot Hts Hdd Hdot. rewrite (suffixOf_default _ Hts).
    destruct (prettyUrl_suffix base "" u Hu Hroot) as (a & -> & Ha).
    rewrite string_app_empty_r.
    destruct Ha as [Ha|[Ha _]]; rewrite Ha in Hdd, Hdot.
    + now apply (not_endsWith_slash a "/index.html").
    + now apply (not_endsWith_slash a ".html").
Qed.

(** With [trailingSlash: 'always'], [blog/index.html] is served as [blog/]. *)
Lemma rewriteUrl_html_trailing_slash_witness :
  endsWith (resolvePrefix "200.html" "prerendered/pages/blog/index.html") ".html"
  = true
  /\ endsWith
       (rewriteUrl "/"
          (suffixOf (E := string) (Some (mkKit None (Some "always") None)))
          "200.html" "prerendered/pages/blog/index.html") "/" = true.
Proof.
  split; [reflexivity|].
  apply (proj1 (proj2 (rewriteUrl_html_trailing_slash
                         (E := string) (Some (mkKit None (Some "always") None))
                         "/" "200.html" "prerendered/pages/blog/index.html"
                         eq_refl))).
  - discriminate.
  - reflexivity.
Defined.

(** ** Paths that no rule matches *)

(** C5, put to the test: [foo.html] starts with no stage prefix and is not
    the fallback document, yet its url is rewritten. *)
Lemma unmatched_html_counterexample :
  startsWith "foo.html" "client/" = false
  /\ startsWith "foo.html" "prerendered/dependencies/" = false
  /\ startsWith "foo.html" "prerendered/pages/" = false
  /\ "foo.html" <> defaultAdapterFallback
  /\ rewriteUrl "/" "" "200.html" "foo.html" = "foo"
  /\ rewriteUrl "/" "" "200.html" "foo.html" <> "foo.html".
Proof. repeat split; discriminate. Qed.

(** C5, amended: a path that matches none of the four rules leaves the
    prefix dispatch unmodified; its url is unmodified when it does not end in
    [.html], and is the pretty URL of the path when it does. *)
Theorem unmatched_url_passes_prefix_dispatch (base suffix adapterFallback url : string) :
  startsWith url "client/" = false ->
  startsWith url "prerendered/dependencies/" = false ->
  startsWith url "prerendered/pages/" = false ->
  url <> "prerendered/fallback.html" ->
  resolvePrefix adapterFallback url = url
  /\ (endsWith url ".html" = false ->
      rewriteUrl base suffix adapterFallback url = url)
  /\ (endsWith url ".html" = true ->
      rewriteUrl base suffix adapterFallback url
      = prettyUrl base suffix (stripLeadingSlash url)).
Proof.
  intros Hc Hd Hp Hf.
  assert (resolvePrefix adapterFallback url = url) as Hr.
  { unfold resolvePrefix. rewrite Hc, Hd, Hp.
    now destruct (String.eqb_spec url defaultAdapterFallback). }
  split; [exact Hr|]. unfold rewriteUrl. rewrite Hr.
  split; intros ->; reflexivity.
Qed.

Lemma unmatched_url_passes_prefix_dispatch_witness :
  resolvePrefix "200.html" "robots.txt" = "robots.txt"
  /\ (endsWith "robots.txt" ".html" = false ->
      rewriteUrl "/" "/" "200.html" "robots.txt" = "robots.txt")
  /\ (endsWith "robots.txt" ".html" = true ->
      rewriteUrl "/" "/" "200.html" "robots.txt"
      = prettyUrl "/" "/" (stripLeadingSlash "robots.txt")).
Proof.
  apply (unmatched_url_passes_prefix_dispatch "/" "/" "200.html" "robots.txt");
    [reflexivity | reflexivity | reflexivity | discriminate].
Defined.

(** ** The glob policy *)

Lemma some_push {A} (pred : A -> bool) arr x :
  some pred (push arr x) = some pred arr || pred x.
Proof. unfold some, push. rewrite existsb_app. simpl. now rewrite orb_false_r. Qed.

Lemma some_app_l {A} (pred : A -> bool) arr added :
  some pred arr = true -> some pred (arr ++ added)%list = true.
Proof. intros Hs. unfold some in *. now rewrite existsb_app, Hs. Qed.

(** A baseline entry is pushed when no entry passes the test of its stage. *)
Lemma ensure_spec {A} (pred : A -> bool) (x : A) (arr : list A) :
  let r := if negb (some pred arr) then push arr x else arr in
  (exists added, r = (arr ++ added)%list /\ incl added [x])
  /\ (pred x = true -> some pred r = true)
  /\ (some pred arr = false -> In x r)
  /\ (forall q, some q arr = true -> some q r = true)
  /\ (forall y, In y arr -> In y r).
Proof.
  destruct (some pred arr) eqn:Hs; simpl.
  - split; [exists []; split; [now rewrite app_nil_r | intros y []]|].
    repeat split; auto. discriminate.
  - split; [exists [x]; split; [reflexivity | intros y Hy; exact Hy]|].
    split; [intros Hx; now rewrite some_push, Hx, orb_true_r|].
    split; [intros _; apply in_or_app; simpl; auto|].
    split; [intros q Hq; now apply some_app_l|].
    intros y Hy. apply in_or_app. auto.
Qed.

(** C6, put to the test: on [['prerendered/x']] the web-manifest pattern is
    not appended, since the client pattern pushed just before contains
    [webmanifest]. *)
Lemma buildGlobPatterns_prerendered_counterexample :
  ~ In webManifestPattern (buildGlobPatterns (Some ["prerendered/x"])).
Proof. simpl. intros [H|[H|[]]]; discriminate. Qed.

(** C6, amended: on [['prerendered/x']] the result is that entry followed by
    the client-stage pattern alone: the entry occurs once, no prerendered
    pattern is added, and neither is the web-manifest pattern, which the
    client-stage pattern already names. *)
Theorem buildGlobPatterns_prerendered :
  buildGlobPatterns (Some ["prerendered/x"]) = ["prerendered/x"; clientPattern]
  /\ count_occ string_dec (buildGlobPatterns (Some ["prerendered/x"]))
       "prerendered/x" = 1%nat
  /\ ~ In prerenderedPattern (buildGlobPatterns (Some ["prerendered/x"]))
  /\ In clientPattern (buildGlobPatterns (Some ["prerendered/x"]))
  /\ ~ In webManifestPattern (buildGlobPatterns (Some ["prerendered/x"]))
  /\ includes clientPattern "webmanifest" = true.
Proof.
  split; [reflexivity|]. split; [reflexivity|].
  split; [simpl; intros [H|[H|[]]]; discriminate|].
  split; [simpl; auto|].
  split; [simpl; intros [H|[H|[]]]; discriminate | reflexivity].
Qed.

(** C7, put to the test: a caller entry under [server/] or [prerendered/]
    stands for the baseline entry, which is then not part of the result. *)
Lemma glob_baseline_counterexample :
  ~ In serverIgnore (buildGlobIgnores (Some ["server/x"]))
  /\ ~ In prerenderedPattern (buildGlobPatterns (Some ["prerendered/x"])).
Proof.
  split; simpl.
  - intros [H|[]]; discriminate.
  - intros [H|[H|[]]]; discriminate.
Qed.

(** C7, amended: without an input list the builders answer the baseline
    entries; with one, the result is the input list followed by baseline
    entries only, it has an entry under each stage prefix ([client/] and
    [prerendered/] for the patterns, [server/] for the ignores), and the
    baseline entry of a stage is part of it whenever no caller entry starts
    with that stage prefix. *)
Theorem glob_builders_extend_input :
  buildGlobPatterns None = [clientPattern; prerenderedPattern]
  /\ buildGlobIgnores None = [serverIgnore]
  /\ forall existing : list string,
      (exists added,
          buildGlobPatterns (Some existing) = (existing ++ added)%list
          /\ incl added [prerenderedPattern; clientPattern; webManifestPattern])
      /\ some (fun g => startsWith g "prerendered/")
           (buildGlobPatterns (Some existing)) = true
      /\ some (fun g => startsWith g "client/")
           (buildGlobPatterns (Some existing)) = true
      /\ (some (fun g => startsWith g "prerendered/") existing = false ->
          In prerenderedPattern (buildGlobPatterns (Some existing)))
      /\ (some (fun g => startsWith g "client/") existing = false ->
          In clientPattern (buildGlobPatterns (Some existing)))
      /\ (exists added,
             buildGlobIgnores (Some existing) = (existing ++ added)%list
             /\ incl added [serverIgnore])
      /\ some (fun g => startsWith g "server/")
           (buildGlobIgnores (Some existing)) = true
      /\ (some (fun g => startsWith g "server/") existing = false ->
          In serverIgnore (buildGlobIgnores (Some existing))).
Proof.
  split; [reflexivity|]. split; [reflexivity|]. intros existing.
  unfold buildGlobPatterns, buildGlobIgnores.
  pose proof (ensure_spec (fun g => startsWith g "prerendered/")
                prerenderedPattern existing) as (Ha1 & Hs1 & Hi1 & Hm1 & _).
  set (l1 := if negb (some (fun g => startsWith g "prerendered/") existing)
             then push existing prerenderedPattern else existing) in *.
  pose proof (ensure_spec (fun g => startsWith g "client/")
                clientPattern l1) as (Ha2 & Hs2 & Hi2 & Hm2 & Hk2).
  set (l2 := if negb (some (fun g => startsWith g "client/") l1)
             then push l1 clientPattern else l1) in *.
  pose proof (ensure_spec (fun g => includes g "webmanifest")
                webManifestPattern l2) as (Ha3 & _ & _ & Hm3 & Hk3).
  set (l3 := if negb (some (fun g => includes g "webmanifest") l2)
             then push l2 webManifestPattern else l2) in *.
  pose proof (ensure_spec (fun g => startsWith g "server/")
                serverIgnore existing) as (Ha4 & Hs4 & Hi4 & _ & _).
  destruct Ha1 as (a1 & E1 & I1), Ha2 as (a2 & E2 & I2),
           Ha3 as (a3 & E3 & I3).
  split; [|split; [|split; [|split; [|split; [|split; [|split]]]]]].
  - exists (a1 ++ a2 ++ a3)%list. split.
    + now rewrite E3, E2, E1, <- !List.app_assoc.
    + intros g Hg. apply in_app_or in Hg as [Hg|Hg];
        [|apply in_app_or in Hg as [Hg|Hg]];
        [apply I1 in Hg | apply I2 in Hg | apply I3 in Hg];
        simpl in *; tauto.
  - apply Hm3, Hm2, Hs1. reflexivity.
  - apply Hm3, Hs2. reflexivity.
  - intros Hno. apply Hk3, Hk2, Hi1, Hno.
  - intros Hno. apply Hk3, Hi2.
    destruct (some (fun g => startsWith g "client/") l1) eqn:Hc; [|reflexivity].
    subst l1.
    destruct (some (fun g => startsWith g "prerendered/") existing);
      simpl in Hc; rewrite ?some_push, Hno in Hc; discriminate.
  - exact Ha4.
  - apply Hs4. reflexivity.
  - exact Hi4.
Qed.

(** ** The manifest transform, step by step *)

Section TransformFacts.

Context {E C H : Type}.
Variable host : Host E C H.

Implicit Types (h : list ManifestEntry) (entries manifest : list nat).
Implicit Types (options : option (KitOptions E)) (wmn : option string).

Lemma transform_eq base outDir wmn options entries h :
  createManifestTransform host base outDir wmn options entries h
  = let kept := List.filter (keepEntry (fallbackOf options).2 h) entries in
    let h1 := mapEntries base (suffixOf options) (fallbackOf options).1 kept h in
    match pushFallback host outDir options kept h1 with
    | Resolved (h2, manifest) => (h2, Resolved (dropWebManifest wmn h2 manifest))
    | Rejected err => (h1, Rejected err)
    end.
Proof.
  unfold createManifestTransform. now destruct (fallbackOf options).
Qed.

Lemma truthy_Some (s : string) : truthy (Some s) = true <-> s <> "".
Proof.
  simpl. destruct (String.eqb_spec s ""); simpl; split; congruence.
Qed.

Lemma fallbackOf_absent options :
  truthy (optAdapterFallback options) = false ->
  fallbackOf options = (defaultAdapterFallback, true).
Proof. intros Hf. unfold fallbackOf. now rewrite Hf. Qed.

Lemma fallbackOf_supplied options af :
  optAdapterFallback options = Some af -> af <> "" ->
  fallbackOf options = (af, false).
Proof.
  intros Ho Hne. apply truthy_Some in Hne.
  unfold fallbackOf. now rewrite Ho, Hne.
Qed.

Lemma pushFallback_off outDir options manifest h :
  spaTruthy (optSpa options) && truthy (optAdapterFallback options) = false ->
  pushFallback host outDir options manifest h = Resolved (h, manifest).
Proof.
  unfold pushFallback. intros Hoff.
  destruct (optSpa options) as [s|]; [|reflexivity].
  destruct (optAdapterFallback options) as [af|]; [|reflexivity].
  now rewrite Hoff.
Qed.

Lemma pushFallback_on outDir options manifest h s af :
  optSpa options = Some s -> spaTruthy (Some s) = true ->
  optAdapterFallback options = Some af -> af <> "" ->
  pushFallback host outDir options manifest h
  = match fallbackEntry host outDir s af with
    | Resolved e => Resolved ((h ++ [e])%list, (manifest ++ [length h])%list)
    | Rejected err => Rejected err
    end.
Proof.
  intros Hs Hon Ho Hne. apply truthy_Some in Hne.
  unfold pushFallback. now rewrite Hs, Ho, Hon, Hne.
Qed.

(** The SPA step answers the array and the store it was given, maybe with
    one more object at the end of both, or it fails. *)
Lemma pushFallback_cases outDir options manifest h :
  (exists err, pushFallback host outDir options manifest h = Rejected err)
  \/ pushFallback host outDir options manifest h = Resolved (h, manifest)
  \/ (exists e, pushFallback host outDir options manifest h
                = Resolved ((h ++ [e])%list, (manifest ++ [length h])%list)).
Proof.
  unfold pushFallback.
  destruct (optSpa options) as [s|]; [|now right; left].
  destruct (optAdapterFallback options) as [af|]; [|now right; left].
  destruct (_ && _); [|now right; left].
  destruct (fallbackEntry host outDir s af) as [e|err].
  - right; right. now exists e.
  - left. now exists err.
Qed.

Lemma dropWebManifest_In wmn h manifest l :
  In l (dropWebManifest wmn h manifest)
  <-> In l manifest /\ (truthy wmn = false \/ urlAt h l <> wmn).
Proof.
  unfold dropWebManifest. destruct (truthy wmn) eqn:Ht; simpl.
  - rewrite filter_In, negb_true_iff, bool_decide_eq_false.
    intuition congruence.
  - intuition.
Qed.

Lemma keepEntry_In excludeFallback h entries l :
  In l (List.filter (keepEntry excludeFallback h) entries)
  <-> In l entries
      /\ (excludeFallback = false \/ urlAt h l <> Some defaultAdapterFallback).
Proof.
  rewrite filter_In. unfold keepEntry.
  rewrite negb_true_iff, andb_false_iff, bool_decide_eq_false. reflexivity.
Qed.

Lemma keepEntry_all h entries :
  List.filter (keepEntry false h) entries = entries.
Proof. induction entries as [|l entries IH]; simpl; now f_equal. Qed.

Lemma NoDup_filter_list {A} (p : A -> bool) (l : list A) :
  NoDup l -> NoDup (List.filter p l).
Proof.
  intros Hnd. apply NoDup_ListNoDup. apply List.NoDup_filter.
  now apply NoDup_ListNoDup.
Qed.

Lemma mapEntries_length base suffix af manifest h :
  length (mapEntries base suffix af manifest h) = length h.
Proof. apply alterAll_length. Qed.

(** The store the transform leaves holds the objects it was given, in
    place, each with the revision and size it had. *)
Lemma transform_store base outDir wmn options entries h :
  let r := createManifestTransform host base outDir wmn options entries h in
  let kept := List.filter (keepEntry (fallbackOf options).2 h) entries in
  exists extra,
    r.1 = (mapEntries base (suffixOf options) (fallbackOf options).1 kept h
           ++ extra)%list.
Proof.
  intros r kept. subst r. rewrite transform_eq. fold kept.
  cbv zeta.
  destruct (pushFallback_cases outDir options kept
              (mapEntries base (suffixOf options) (fallbackOf options).1 kept h))
    as [[err ->]|[->|[e ->]]].
  - exists []. simpl. now rewrite app_nil_r.
  - exists []. simpl. now rewrite app_nil_r.
  - now exists [e].
Qed.

Lemma transform_lookup base outDir wmn options entries h l :
  (l < length h)%nat ->
  (createManifestTransform host base outDir wmn options entries h).1 !! l
  = mapEntries base (suffixOf options) (fallbackOf options).1
      (List.filter (keepEntry (fallbackOf options).2 h) entries) h !! l.
Proof.
  intros Hl.
  destruct (transform_store base outDir wmn options entries h) as [extra ->].
  apply lookup_app_l. now rewrite mapEntries_length.
Qed.

(** An entry of the resulting manifest is an entry that passed the first
    filter, or the object appended by the SPA step. *)
Lemma transform_manifest_In base outDir wmn options entries h manifest l :
  (createManifestTransform host base outDir wmn options entries h).2
  = Resolved manifest ->
  In l manifest ->
  (In l (List.filter (keepEntry (fallbackOf options).2 h) entries)
   \/ l = length h)
  /\ (truthy wmn = false
      \/ urlAt (createManifestTransform host base outDir wmn options entries h).1 l
         <> wmn).
Proof.
  rewrite transform_eq. cbv zeta.
  set (kept := List.filter _ entries).
  set (h1 := mapEntries _ _ _ kept h).
  assert (length h1 = length h) as Hlen by apply mapEntries_length.
  destruct (pushFallback_cases outDir options kept h1)
    as [[err ->]|[->|[e ->]]]; simpl; intros Hm Hin; [discriminate| |];
    injection Hm as <-; apply dropWebManifest_In in Hin as [Hin Hw];
    (split; [|exact Hw]).
  - now left.
  - apply in_app_or in Hin as [Hin|[<-|[]]]; [now left | now right].
Qed.

(** Conversely, an entry that passed the first filter is in the manifest,
    unless its url is the name of the web manifest. *)
Lemma transform_manifest_kept base outDir wmn options entries h manifest l :
  (createManifestTransform host base outDir wmn options entries h).2
  = Resolved manifest ->
  In l (List.filter (keepEntry (fallbackOf options).2 h) entries) ->
  truthy wmn = false
  \/ urlAt (createManifestTransform host base outDir wmn options entries h).1 l
     <> wmn ->
  In l manifest.
Proof.
  rewrite transform_eq. cbv zeta.
  set (kept := List.filter _ entries).
  set (h1 := mapEntries _ _ _ kept h).
  destruct (pushFallback_cases outDir options kept h1)
    as [[err ->]|[->|[e ->]]]; simpl; intros Hm Hin Hw; [discriminate| |];
    injection Hm as <-; apply dropWebManifest_In; (split; [|exact Hw]).
  - exact Hin.
  - apply in_or_app. now left.
Qed.

End TransformFacts.

(** ** The fallback document and the entry objects *)

Section EntryClaims.

Context {E C H : Type}.
Variable host : Host E C H.

Implicit Types (h : list ManifestEntry) (entries manifest : list nat).
Implicit Types (options : option (KitOptions E)) (wmn : option string).

(** The object behind a reference that passed the first filter, once the
    transform is over, when the array lists it once. *)
Lemma transform_lookup_kept base outDir wmn options entries h l e :
  h !! l = Some e -> NoDup entries ->
  In l (List.filter (keepEntry (fallbackOf options).2 h) entries) ->
  (createManifestTransform host base outDir wmn options entries h).1 !! l
  = Some (rewriteEntry base (suffixOf options) (fallbackOf options).1 e).
Proof.
  intros Hl Hnd Hin. rewrite transform_lookup by now apply lookup_lt_Some in Hl.
  unfold mapEntries. rewrite alterAll_lookup_once, Hl; auto.
  now apply NoDup_filter_list.
Qed.

Lemma rewriteUrl_fallback base suffix af :
  rewriteUrl base suffix af defaultAdapterFallback
  = if endsWith af ".html" then prettyUrl base suffix (stripLeadingSlash af)
    else af.
Proof. unfold rewriteUrl. now rewrite resolvePrefix_fallback. Qed.

(** C2, amended: when no fallback override is supplied (none, or the empty
    string), no entry whose url is the default fallback document is part of
    the resulting manifest; when one is supplied, such an entry gets the
    override as its url, turned into a pretty URL when the override ends in
    [.html], and is part of the resulting manifest unless that url is the
    name of the web manifest. *)
Theorem fallback_document_entries base outDir wmn options entries h :
  (truthy (optAdapterFallback options) = false ->
   exists manifest,
     (createManifestTransform host base outDir wmn options entries h).2
     = Resolved manifest
     /\ forall l, urlAt h l = Some defaultAdapterFallback -> ~ In l manifest)
  /\ (forall af l e,
       optAdapterFallback options = Some af -> af <> "" ->
       NoDup entries -> In l entries ->
       h !! l = Some e -> url e = defaultAdapterFallback ->
       let u := if endsWith af ".html"
                then prettyUrl base (suffixOf options) (stripLeadingSlash af)
                else af in
       (createManifestTransform host base outDir wmn options entries h).1 !! l
       = Some (setUrl u e)
       /\ forall manifest,
           (createManifestTransform host base outDir wmn options entries h).2
           = Resolved manifest ->
           (In l manifest <-> truthy wmn = false \/ wmn <> Some u)).
Proof.
  split.
  - intros Hf. rewrite transform_eq. cbv zeta.
    rewrite pushFallback_off by (rewrite Hf; apply andb_false_r).
    eexists. split; [reflexivity|].
    intros l Hl Hin. apply dropWebManifest_In in Hin as [Hin _].
    apply keepEntry_In in Hin as [_ Hk].
    rewrite (fallbackOf_absent _ Hf) in Hk. simpl in Hk.
    destruct Hk; [discriminate | contradiction].
  - intros af l e Ho Hne Hnd Hin Hl Hu u.
    assert (In l (List.filter (keepEntry (fallbackOf options).2 h) entries))
      as Hkept.
    { rewrite (fallbackOf_supplied _ _ Ho Hne). simpl.
      now rewrite keepEntry_all. }
    pose proof (transform_lookup_kept base outDir wmn options entries h l e
                  Hl Hnd Hkept) as Hlook.
    unfold rewriteEntry in Hlook.
    rewrite Hu, (fallbackOf_supplied _ _ Ho Hne) in Hlook. simpl fst in Hlook.
    rewrite rewriteUrl_fallback in Hlook. fold u in Hlook.
    split; [exact Hlook|]. intros manifest Hm.
    assert (urlAt (createManifestTransform host base outDir wmn options entries h).1 l
            = Some u) as Hurl.
    { unfold urlAt. now rewrite Hlook. }
    split.
    + intros Hinm.
      destruct (transform_manifest_In host _ _ _ _ _ _ _ _ Hm Hinm) as [_ Hw].
      rewrite Hurl in Hw. destruct Hw; [now left | right; congruence].
    + intros Hw. apply (transform_manifest_kept host _ _ _ _ _ _ _ _ Hm Hkept).
      rewrite Hurl. destruct Hw; [now left | right; congruence].
Qed.

(** C4, amended: no record is made for an input entry: the transform
    assigns the rewritten url to the input entry object itself, and every
    element of the resulting manifest is a reference of the input array or
    the one object of the SPA step.  Every object of the store keeps its
    revision and size.  An entry listed once that passes the first filter
    has the rewritten url in place, and its reference is part of the
    resulting manifest unless the rewritten url is the name of the web
    manifest.  An entry that the first filter drops is left as it is, and
    its reference is not part of the resulting manifest. *)
Theorem transform_rewrites_entries_in_place
    base outDir wmn options entries h l e :
  h !! l = Some e ->
  let r := createManifestTransform host base outDir wmn options entries h in
  let u := rewriteUrl base (suffixOf options) (fallbackOf options).1 (url e) in
  (exists e', r.1 !! l = Some e'
              /\ revision e' = revision e /\ size e' = size e)
  /\ (NoDup entries -> In l entries ->
      keepEntry (fallbackOf options).2 h l = true ->
      r.1 !! l = Some {| url := u; revision := revision e; size := size e |}
      /\ forall manifest,
          r.2 = Resolved manifest ->
          (In l manifest <-> truthy wmn = false \/ wmn <> Some u))
  /\ (keepEntry (fallbackOf options).2 h l = false ->
      r.1 !! l = Some e
      /\ forall manifest, r.2 = Resolved manifest -> ~ In l manifest)
  /\ (forall manifest l',
        r.2 = Resolved manifest -> In l' manifest ->
        In l' entries \/ (l' = length h /\ length r.1 = S (length h))).
Proof.
  intros Hl r u.
  assert (l < length h)%nat as Hlt by now apply lookup_lt_Some in Hl.
  split; [|split; [|split]].
  - subst r. rewrite transform_lookup by exact Hlt.
    unfold mapEntries.
    set (f := rewriteEntry base (suffixOf options) (fallbackOf options).1).
    set (kept := List.filter _ entries).
    pose proof (alterAll_preserved f revision kept h l (fun _ => eq_refl)) as Hr.
    pose proof (alterAll_preserved f size kept h l (fun _ => eq_refl)) as Hs.
    rewrite Hl in Hr, Hs.
    destruct (alterAll f kept h !! l) as [e'|]; [|discriminate].
    exists e'. simpl in Hr, Hs. split; [reflexivity|]. split; congruence.
  - intros Hnd Hin Hk.
    assert (In l (List.filter (keepEntry (fallbackOf options).2 h) entries))
      as Hkept by (apply filter_In; auto).
    pose proof (transform_lookup_kept base outDir wmn options entries h l e
                  Hl Hnd Hkept) as Hlook.
    fold r in Hlook. split; [exact Hlook|]. intros manifest Hm.
    assert (urlAt r.1 l = Some u) as Hurl.
    { unfold urlAt. now rewrite Hlook. }
    split.
    + intros Hinm.
      destruct (transform_manifest_In host _ _ _ _ _ _ _ _ Hm Hinm) as [_ Hw].
      fold r in Hw. rewrite Hurl in Hw.
      destruct Hw; [now left | right; congruence].
    + intros Hw. apply (transform_manifest_kept host _ _ _ _ _ _ _ _ Hm Hkept).
      fold r. rewrite Hurl. destruct Hw; [now left | right; congruence].
  - intros Hk.
    assert (~ In l (List.filter (keepEntry (fallbackOf options).2 h) entries))
      as Hout.
    { intros Hin. apply filter_In in Hin as [_ Hin]. congruence. }
    split.
    + subst r. rewrite transform_lookup by exact Hlt. unfold mapEntries.
      rewrite alterAll_lookup, Hl.
      now rewrite (proj1 (List.count_occ_not_In Nat.eq_dec _ l) Hout).
    + intros manifest Hm Hin.
      destruct (transform_manifest_In host _ _ _ _ _ _ _ _ Hm Hin)
        as [[Hin'|Heq] _]; [contradiction | lia].
  - intros manifest l' Hm Hin.
    destruct (transform_manifest_In host _ _ _ _ _ _ _ _ Hm Hin)
      as [[Hin'|Heq] _].
    + left. now apply filter_In in Hin' as [Hin' _].
    + destruct (in_dec Nat.eq_dec l' entries) as [Hyes|Hno]; [now left|].
      right. split; [exact Heq|]. subst l'.
      revert Hm Hin. subst r. rewrite transform_eq. cbv zeta.
      set (kept := List.filter _ entries).
      set (h1 := mapEntries _ _ _ kept h).
      assert (length h1 = length h) as Hlen by apply mapEntries_length.
      destruct (pushFallback_cases host outDir options kept h1)
        as [[err Hp]|[Hp|[e0 Hp]]]; rewrite Hp; simpl;
        [discriminate| |].
      * intros [= <-] Hin. apply dropWebManifest_In in Hin as [Hin _].
        apply filter_In in Hin as [Hin _]. contradiction.
      * intros _ _. rewrite length_app, Hlen. simpl. lia.
Qed.

End EntryClaims.

(** C2, put to the test: with the override [200.html], the entry of the
    default fallback document is kept, but its url becomes [200], not the
    override. *)
Lemma fallback_override_counterexample :
  createManifestTransform Sample.host "/" "/out" None
    (Sample.kit (Some "200.html") None) [0%nat]
    [mkEntry "prerendered/fallback.html" "r3" 30]
  = ([mkEntry "200" "r3" 30], Resolved [0%nat])
  /\ "200" <> "200.html".
Proof. split; [reflexivity | discriminate]. Qed.

Lemma fallback_document_entries_witness :
  (createManifestTransform Sample.host "/" "/out" None
     (Sample.kit (Some "offline") None) [0%nat]
     [mkEntry "prerendered/fallback.html" "r3" 30]).1 !! 0%nat
  = Some (mkEntry "offline" "r3" 30).
Proof.
  assert ("offline" <> "") as Hne by discriminate.
  assert (NoDup [0%nat]) as Hnd by apply NoDup_singleton.
  assert (In 0%nat [0%nat]) as Hin by (simpl; tauto).
  exact (proj1 (proj2 (fallback_document_entries Sample.host "/" "/out" None
                         (Sample.kit (Some "offline") None) [0%nat]
                         [mkEntry "prerendered/fallback.html" "r3" 30])
                  "offline" 0%nat (mkEntry "prerendered/fallback.html" "r3" 30)
                  eq_refl Hne Hnd Hin eq_refl eq_refl)).
Defined.

(** C4, put to the test: the manifest holds the reference it was given, and
    the object behind it is no longer what it was. *)
Lemma entry_mutated_counterexample :
  let h := [mkEntry "client/a.js" "r1" 10] in
  let r := createManifestTransform Sample.host "/" "/out" None None [0%nat] h in
  r = ([mkEntry "a.js" "r1" 10], Resolved [0%nat])
  /\ r.1 !! 0%nat <> h !! 0%nat.
Proof. split; [reflexivity | discriminate]. Qed.

Lemma transform_rewrites_entries_in_place_witness :
  (createManifestTransform Sample.host "/" "/out" None None [0%nat]
     [mkEntry "client/a.js" "r1" 10]).1 !! 0%nat
  = Some (mkEntry "a.js" "r1" 10).
Proof.
  assert (NoDup [0%nat]) as Hnd by apply NoDup_singleton.
  assert (In 0%nat [0%nat]) as Hin by (simpl; tauto).
  exact (proj1 (proj1 (proj2 (transform_rewrites_entries_in_place
                                Sample.host "/" "/out" None None [0%nat]
                                [mkEntry "client/a.js" "r1" 10] 0%nat
                                (mkEntry "client/a.js" "r1" 10) eq_refl))
                  Hnd Hin eq_refl)).
Defined.


(** ** The SPA fallback entry *)

Section SpaClaims.

Context {E C H : Type}.
Variable host : Host E C H.

Implicit Types (h : list ManifestEntry) (entries manifest : list nat).
Implicit Types (options : option (KitOptions E)) (wmn : option string).

Lemma hashStream_error chunks err cHash :
  hashStream host (emitData chunks (OnError err)) cHash = Rejected err.
Proof.
  revert cHash. induction chunks as [|chunk chunks IH]; intros cHash;
    [reflexivity | apply IH].
Qed.

Lemma hashStream_end chunks cHash :
  hashStream host (emitData chunks OnEnd) cHash
  = Resolved (foldl (update host) cHash chunks).
Proof.
  revert cHash. induction chunks as [|chunk chunks IH]; intros cHash;
    [reflexivity | apply IH].
Qed.

Lemma buildManifestEntry_error url path chunks err :
  createReadStream host path = emitData chunks (OnError err) ->
  buildManifestEntry host url path = Rejected err.
Proof.
  intros Hs. unfold buildManifestEntry. now rewrite Hs, hashStream_error.
Qed.

(** Without a revision supplier the entry comes from hashing the version
    file. *)
Lemma fallbackEntry_hashed outDir s af :
  (forall o, s = SpaObj o -> fallbackRevision o = None) ->
  fallbackEntry host outDir s af
  = buildManifestEntry host (fallbackName s af)
      (resolve host outDir "client/_app/version.json").
Proof.
  intros Hno. unfold fallbackEntry. destruct s as [b|[mapping supplier]];
    [reflexivity|].
  specialize (Hno _ eq_refl). simpl in Hno. now subst supplier.
Qed.

Lemma dropWebManifest_snoc wmn h manifest l :
  dropWebManifest wmn h (manifest ++ [l])
  = (dropWebManifest wmn h manifest
     ++ if truthy wmn && bool_decide (urlAt h l = wmn) then [] else [l])%list.
Proof.
  unfold dropWebManifest. destruct (truthy wmn); simpl; [|reflexivity].
  rewrite List.filter_app. simpl. now destruct (bool_decide _).
Qed.

Lemma dropWebManifest_incl wmn h manifest :
  incl (dropWebManifest wmn h manifest) manifest.
Proof. intros l Hl. now apply dropWebManifest_In in Hl. Qed.

(** The transform in SPA mode, when the fallback entry could be built. *)
Lemma transform_spa_resolved base outDir wmn options entries h s af e :
  optSpa options = Some s -> spaTruthy (Some s) = true ->
  optAdapterFallback options = Some af -> af <> "" ->
  fallbackEntry host outDir s af = Resolved e ->
  let h1 := mapEntries base (suffixOf options) af entries h in
  createManifestTransform host base outDir wmn options entries h
  = ((h1 ++ [e])%list,
     Resolved (dropWebManifest wmn (h1 ++ [e]) entries
               ++ if truthy wmn && bool_decide (Some (url e) = wmn)
                  then [] else [length h])%list).
Proof.
  intros Hs Hon Ho Hne He h1. rewrite transform_eq. cbv zeta.
  rewrite (fallbackOf_supplied _ _ Ho Hne). simpl fst. simpl snd.
  rewrite keepEntry_all. fold h1.
  rewrite (pushFallback_on host outDir options entries h1 s af Hs Hon Ho Hne), He.
  rewrite dropWebManifest_snoc.
  assert (length h1 = length h) as Hlen by apply mapEntries_length.
  assert (urlAt (h1 ++ [e]) (length h1) = Some (url e)) as Hurl.
  { unfold urlAt. now rewrite list_lookup_middle. }
  now rewrite Hurl, Hlen.
Qed.

(** The transform in SPA mode, when building the fallback entry failed. *)
Lemma transform_spa_rejected base outDir wmn options entries h s af err :
  optSpa options = Some s -> spaTruthy (Some s) = true ->
  optAdapterFallback options = Some af -> af <> "" ->
  fallbackEntry host outDir s af = Rejected err ->
  createManifestTransform host base outDir wmn options entries h
  = (mapEntries base (suffixOf options) af entries h, Rejected err).
Proof.
  intros Hs Hon Ho Hne He. rewrite transform_eq. cbv zeta.
  rewrite (fallbackOf_supplied _ _ Ho Hne). simpl fst. simpl snd.
  rewrite keepEntry_all.
  now rewrite (pushFallback_on host outDir options entries _ s af Hs Hon Ho Hne), He.
Qed.

Lemma liveRefs_incl h refs refs' :
  incl refs' refs -> liveRefs h refs -> liveRefs h refs'.
Proof.
  unfold liveRefs. rewrite !Forall_forall. intros Hi Hl l Hin.
  apply Hl. apply list_elem_of_In. apply Hi. now apply list_elem_of_In.
Qed.

(** C8, amended: in SPA mode with a non-empty [fallbackMapping], a
    [fallbackRevision] supplier that resolves with [rev], and a non-empty
    [adapterFallback], the transform resolves and makes exactly one new
    object, [{url: mapping, revision: rev, size: 0}].  When the mapped url
    is not the name of the web manifest, that object is the last element of
    the manifest and every other element is an object of the input; when it
    is, the object is left out of the manifest. *)
Theorem spa_custom_fallback_entry
    base outDir wmn options entries h o mapping rev af :
  optSpa options = Some (SpaObj o) ->
  fallbackMapping o = Some mapping -> mapping <> "" ->
  fallbackRevision o = Some (Resolved rev) ->
  optAdapterFallback options = Some af -> af <> "" ->
  liveRefs h entries ->
  let r := createManifestTransform host base outDir wmn options entries h in
  length r.1 = S (length h)
  /\ r.1 !! length h = Some {| url := mapping; revision := rev; size := 0 |}
  /\ exists kept,
      incl kept entries /\ liveRefs h kept /\ ~ In (length h) kept
      /\ (truthy wmn = false \/ wmn <> Some mapping ->
          r.2 = Resolved (kept ++ [length h])%list)
      /\ (truthy wmn = true -> wmn = Some mapping -> r.2 = Resolved kept).
Proof.
  intros Hs Hm Hmne Hrev Ho Hne Hlive r.
  assert (fallbackEntry host outDir (SpaObj o) af
          = Resolved {| url := mapping; revision := rev; size := 0 |}) as He.
  { unfold fallbackEntry, fallbackName. destruct o as [m s].
    simpl in Hm, Hrev. subst m s. apply truthy_Some in Hmne.
    cbn [fallbackMapping fallbackRevision]. now rewrite Hmne. }
  subst r.
  rewrite (transform_spa_resolved base outDir wmn options entries h _ af _
             Hs eq_refl Ho Hne He).
  cbv zeta. simpl fst. simpl snd. simpl url.
  set (h1 := mapEntries base (suffixOf options) af entries h).
  assert (length h1 = length h) as Hlen by apply mapEntries_length.
  split; [rewrite length_app, Hlen; simpl; lia|].
  split; [rewrite <- Hlen; now apply list_lookup_middle|].
  exists (dropWebManifest wmn (h1 ++ [mkEntry mapping rev 0]) entries).
  assert (liveRefs h (dropWebManifest wmn (h1 ++ [mkEntry mapping rev 0]) entries))
    as Hkept by (eapply liveRefs_incl; [apply dropWebManifest_incl | exact Hlive]).
  split; [apply dropWebManifest_incl|]. split; [exact Hkept|]. split.
  { intros Hin. unfold liveRefs in Hkept. rewrite Forall_forall in Hkept.
    apply list_elem_of_In, Hkept in Hin. lia. }
  split.
  - intros Hw.
    assert (truthy wmn && bool_decide (Some mapping = wmn) = false) as ->;
      [|reflexivity].
    destruct Hw as [->|Hw]; [reflexivity|].
    rewrite bool_decide_eq_false_2 by congruence. apply andb_false_r.
  - intros Ht Hw. rewrite Ht, bool_decide_eq_true_2 by congruence.
    simpl. now rewrite app_nil_r.
Qed.

(** C9: when the stream of the version file emits an error, after any
    number of chunks, the promise of [buildManifestEntry] rejects with that
    error, and so does the transform: it answers no manifest. *)
Theorem hashing_failure_rejects_transform
    base outDir wmn options entries h s af chunks err :
  optSpa options = Some s -> spaTruthy (Some s) = true ->
  (forall o, s = SpaObj o -> fallbackRevision o = None) ->
  optAdapterFallback options = Some af -> af <> "" ->
  createReadStream host (resolve host outDir "client/_app/version.json")
  = emitData chunks (OnError err) ->
  (forall url,
      buildManifestEntry host url (resolve host outDir "client/_app/version.json")
      = Rejected err)
  /\ (createManifestTransform host base outDir wmn options entries h).2
     = Rejected err.
Proof.
  intros Hs Hon Hno Ho Hne Hstream.
  split; [intros url0; now apply (buildManifestEntry_error _ _ chunks)|].
  rewrite (transform_spa_rejected base outDir wmn options entries h s af err);
    auto.
  rewrite fallbackEntry_hashed by exact Hno.
  now apply (buildManifestEntry_error _ _ chunks).
Qed.

(** C10: in SPA mode with a non-empty [adapterFallback], the entry that is
    appended has as url the [fallbackMapping] when the [spa] option is an
    object with a non-empty one, the [adapterFallback] otherwise, as it is
    written; the new object is the last of the store, and it is the last
    element of the manifest, unless its url is the name of the web manifest,
    in which case it is not part of the manifest. *)
Theorem spa_fallback_url_verbatim
    base outDir wmn options entries h s af e :
  optSpa options = Some s -> spaTruthy (Some s) = true ->
  optAdapterFallback options = Some af -> af <> "" ->
  fallbackEntry host outDir s af = Resolved e ->
  liveRefs h entries ->
  let r := createManifestTransform host base outDir wmn options entries h in
  let name := match s with
              | SpaObj {| fallbackMapping := Some mapping |} =>
                  if String.eqb mapping "" then af else mapping
              | _ => af
              end in
  url e = name
  /\ r.1 !! length h = Some e
  /\ exists manifest,
      r.2 = Resolved manifest
      /\ (truthy wmn = false \/ wmn <> Some name ->
          last manifest = Some (length h))
      /\ (truthy wmn = true -> wmn = Some name -> ~ In (length h) manifest).
Proof.
  intros Hs Hon Ho Hne He Hlive r name.
  assert (url e = name) as Hname.
  { subst name. unfold fallbackEntry, fallbackName in He.
    destruct s as [b|[[mapping|] [[rev|err]|]]]; simpl in He;
      try discriminate;
      try (injection He as <-; simpl; now destruct (String.eqb mapping ""));
      try (injection He as <-; reflexivity);
      unfold buildManifestEntry in He;
      destruct (hashStream _ _ _); try discriminate;
      injection He as <-; simpl; try reflexivity;
      now destruct (String.eqb mapping ""). }
  split; [exact Hname|]. subst r.
  rewrite (transform_spa_resolved base outDir wmn options entries h s af e
             Hs Hon Ho Hne He).
  cbv zeta. simpl fst. simpl snd. rewrite Hname.
  set (h1 := mapEntries base (suffixOf options) af entries h).
  assert (length h1 = length h) as Hlen by apply mapEntries_length.
  split; [rewrite <- Hlen; now apply list_lookup_middle|].
  eexists. split; [reflexivity|]. split.
  - intros Hw.
    assert (truthy wmn && bool_decide (Some name = wmn) = false) as ->.
    { destruct Hw as [->|Hw]; [reflexivity|].
      rewrite bool_decide_eq_false_2 by congruence. apply andb_false_r. }
    apply last_snoc.
  - intros Ht Hw. rewrite Ht, bool_decide_eq_true_2 by congruence.
    simpl. rewrite app_nil_r. intros Hin.
    apply dropWebManifest_incl in Hin.
    unfold liveRefs in Hlive. rewrite Forall_forall in Hlive.
    apply list_elem_of_In, Hlive in Hin. lia.
Qed.

End SpaClaims.

(** C8, put to the test: the mapped url is the name of the web manifest, the
    supplier answers [abc]; the new object is made, and filtered out of the
    manifest, which ends with an entry of the input. *)
Lemma spa_mapping_web_manifest_counterexample :
  createManifestTransform Sample.host "/" "/out" (Some "manifest.webmanifest")
    (Sample.kit (Some "200.html")
       (Some (SpaObj (mkSpa (Some "manifest.webmanifest") (Some (Resolved "abc"))))))
    [0%nat] [mkEntry "client/_app/x.js" "r1" 10]
  = ([mkEntry "_app/x.js" "r1" 10; mkEntry "manifest.webmanifest" "abc" 0],
     Resolved [0%nat]).
Proof. reflexivity. Qed.

Lemma spa_custom_fallback_entry_witness :
  (createManifestTransform Sample.host "/" "/out" (Some "manifest.webmanifest")
     (Sample.kit (Some "200.html")
        (Some (SpaObj (mkSpa (Some "/offline") (Some (Resolved "abc"))))))
     [0%nat] [mkEntry "client/_app/x.js" "r1" 10]).1 !! 1%nat
  = Some (mkEntry "/offline" "abc" 0).
Proof.
  assert ("/offline" <> "") as Hm by discriminate.
  assert ("200.html" <> "") as Ha by discriminate.
  assert (liveRefs [mkEntry "client/_app/x.js" "r1" 10] [0%nat]) as Hl
    by (unfold liveRefs; repeat constructor).
  exact (proj1 (proj2 (spa_custom_fallback_entry Sample.host "/" "/out"
           (Some "manifest.webmanifest")
           (Sample.kit (Some "200.html")
              (Some (SpaObj (mkSpa (Some "/offline") (Some (Resolved "abc"))))))
           [0%nat] [mkEntry "client/_app/x.js" "r1" 10]
           (mkSpa (Some "/offline") (Some (Resolved "abc"))) "/offline" "abc"
           "200.html" eq_refl eq_refl Hm eq_refl eq_refl Ha Hl))).
Defined.

(** The version file is looked for under [/nowhere]: the stream emits
    [ENOENT], and the transform rejects with it. *)
Lemma hashing_failure_rejects_transform_witness :
  (createManifestTransform Sample.host "/" "/nowhere" None
     (Sample.kit (Some "200.html") (Some (SpaBool true)))
     [0%nat] [mkEntry "client/_app/x.js" "r1" 10]).2
  = Rejected "ENOENT".
Proof.
  assert ("200.html" <> "") as Ha by discriminate.
  assert (forall o : SpaObject string,
             SpaBool true = SpaObj o -> fallbackRevision o = None) as Hno
    by discriminate.
  exact (proj2 (hashing_failure_rejects_transform Sample.host "/" "/nowhere"
                  None (Sample.kit (Some "200.html") (Some (SpaBool true)))
                  [0%nat] [mkEntry "client/_app/x.js" "r1" 10]
                  (SpaBool true) "200.html" [] "ENOENT"
                  eq_refl eq_refl Hno eq_refl Ha eq_refl)).
Defined.

(** A fallback named like a prerendered page keeps its name. *)
Lemma spa_fallback_url_verbatim_witness :
  (createManifestTransform Sample.host "/" "/out" None
     (Sample.kit (Some "/prerendered/pages/offline.html") (Some (SpaBool true)))
     [0%nat] [mkEntry "client/_app/x.js" "r1" 10]).1 !! 1%nat
  = Some (mkEntry "/prerendered/pages/offline.html" "{}" 0).
Proof.
  assert ("/prerendered/pages/offline.html" <> "") as Ha by discriminate.
  assert (liveRefs [mkEntry "client/_app/x.js" "r1" 10] [0%nat]) as Hl
    by (unfold liveRefs; repeat constructor).
  exact (proj1 (proj2 (spa_fallback_url_verbatim Sample.host "/" "/out" None
                         (Sample.kit (Some "/prerendered/pages/offline.html")
                            (Some (SpaBool true)))
                         [0%nat] [mkEntry "client/_app/x.js" "r1" 10]
                         (SpaBool true) "/prerendered/pages/offline.html"
                         (mkEntry "/prerendered/pages/offline.html" "{}" 0)
                         eq_refl eq_refl eq_refl Ha eq_refl Hl))).
Defined.

(** ** Worked runs *)

(** A client asset, a prerendered page and the fallback document, without
    options: the fallback is dropped, the page is served without extension
    and without trailing slash. *)
Example run_default_options :
  createManifestTransform Sample.host "/" "/out" (Some "manifest.webmanifest")
    None [0; 1; 2]%nat
    [mkEntry "client/_app/x.js" "r1" 10;
     mkEntry "prerendered/pages/about.html" "r2" 20;
     mkEntry "prerendered/fallback.html" "r3" 30]
  = ([mkEntry "_app/x.js" "r1" 10;
      mkEntry "about" "r2" 20;
      mkEntry "prerendered/fallback.html" "r3" 30],
     Resolved [0; 1]%nat).
Proof. reflexivity. Qed.

(** The same with [trailingSlash: 'always']. *)
Example run_trailing_slash_always :
  createManifestTransform Sample.host "/" "/out" (Some "manifest.webmanifest")
    (Some (mkKit None (Some "always") None)) [0; 1; 2]%nat
    [mkEntry "client/_app/x.js" "r1" 10;
     mkEntry "prerendered/pages/about.html" "r2" 20;
     mkEntry "prerendered/fallback.html" "r3" 30]
  = ([mkEntry "_app/x.js" "r1" 10;
      mkEntry "about/" "r2" 20;
      mkEntry "prerendered/fallback.html" "r3" 30],
     Resolved [0; 1]%nat).
Proof. reflexivity. Qed.

(** SPA mode with a mapping and a revision supplier: the new object comes
    last. *)
Example run_spa_custom_revision :
  createManifestTransform Sample.host "/" "/out" (Some "manifest.webmanifest")
    (Sample.kit (Some "200.html")
       (Some (SpaObj (mkSpa (Some "/offline") (Some (Resolved "abc"))))))
    [0%nat] [mkEntry "client/manifest.webmanifest" "r1" 10]
  = ([mkEntry "manifest.webmanifest" "r1" 10; mkEntry "/offline" "abc" 0],
     Resolved [1%nat]).
Proof. reflexivity. Qed.

(** SPA mode without a supplier: the revision is the digest of the version
    file. *)
Example run_spa_hashed_revision :
  createManifestTransform Sample.host "/" "/out" None
    (Sample.kit (Some "200.html") (Some (SpaBool true)))
    [0%nat] [mkEntry "prerendered/fallback.html" "r3" 30]
  = ([mkEntry "200" "r3" 30; mkEntry "200.html" "{}" 0],
     Resolved [0; 1]%nat).
Proof. reflexivity. Qed.

(** An entry listed twice is rewritten twice. *)
Example run_aliased_entry :
  createManifestTransform Sample.host "/" "/out" None None [0; 0]%nat
    [mkEntry "client/client/x.js" "r" 1]
  = ([mkEntry "x.js" "r" 1], Resolved [0; 0]%nat).
Proof. reflexivity. Qed.

Example run_glob_defaults :
  buildGlobPatterns (Some ["client/a.js"])
  = ["client/a.js"; prerenderedPattern; webManifestPattern]
  /\ buildGlobIgnores (Some []) = [serverIgnore].
Proof. split; reflexivity. Qed.

(** * Further properties *)

(** ** The glob policy, run again *)

Lemma buildGlobPatterns_tests (g : option (list string)) :
  some (fun g => startsWith g "prerendered/") (buildGlobPatterns g) = true
  /\ some (fun g => startsWith g "client/") (buildGlobPatterns g) = true
  /\ some (fun g => includes g "webmanifest") (buildGlobPatterns g) = true.
Proof.
  destruct g as [existing|]; [|repeat split]. unfold buildGlobPatterns.
  pose proof (ensure_spec (fun g => startsWith g "prerendered/")
                prerenderedPattern existing) as (_ & Hs1 & _ & _ & _).
  set (l1 := if negb (some (fun g => startsWith g "prerendered/") existing)
             then push existing prerenderedPattern else existing) in *.
  pose proof (ensure_spec (fun g => startsWith g "client/")
                clientPattern l1) as (_ & Hs2 & _ & Hm2 & _).
  set (l2 := if negb (some (fun g => startsWith g "client/") l1)
             then push l1 clientPattern else l1) in *.
  pose proof (ensure_spec (fun g => includes g "webmanifest")
                webManifestPattern l2) as (_ & Hs3 & _ & Hm3 & _).
  set (l3 := if negb (some (fun g => includes g "webmanifest") l2)
             then push l2 webManifestPattern else l2) in *.
  split; [|split].
  - apply Hm3, Hm2, Hs1. reflexivity.
  - apply Hm3, Hs2. reflexivity.
  - apply Hs3. reflexivity.
Qed.

Lemma buildGlobPatterns_fixed (arr : list string) :
  some (fun g => startsWith g "prerendered/") arr = true ->
  some (fun g => startsWith g "client/") arr = true ->
  some (fun g => includes g "webmanifest") arr = true ->
  buildGlobPatterns (Some arr) = arr.
Proof.
  intros H1 H2 H3. unfold buildGlobPatterns.
  rewrite H1. simpl. rewrite H2. simpl. now rewrite H3.
Qed.

(** X1: [buildGlobPatterns] is idempotent: given its own result, it pushes
    nothing more. *)
Theorem buildGlobPatterns_idempotent (g : option (list string)) :
  buildGlobPatterns (Some (buildGlobPatterns g)) = buildGlobPatterns g.
Proof.
  destruct (buildGlobPatterns_tests g) as (H1 & H2 & H3).
  now apply buildGlobPatterns_fixed.
Qed.

(** X2: [buildGlobIgnores] is idempotent. *)
Theorem buildGlobIgnores_idempotent (g : option (list string)) :
  buildGlobIgnores (Some (buildGlobIgnores g)) = buildGlobIgnores g.
Proof.
  destruct g as [existing|]; [|reflexivity]. unfold buildGlobIgnores.
  destruct (some (fun g => startsWith g "server/") existing) eqn:Hs; simpl.
  - now rewrite Hs.
  - now rewrite some_push, Hs.
Qed.

(** X3: whatever the caller supplies, some pattern of the result names
    [webmanifest]; a caller pattern that does so keeps the web-manifest
    pattern away. *)
Theorem buildGlobPatterns_names_webmanifest (g : option (list string)) :
  (exists p, In p (buildGlobPatterns g) /\ includes p "webmanifest" = true)
  /\ (forall existing,
        g = Some existing ->
        some (fun p => includes p "webmanifest") existing = true ->
        ~ In webManifestPattern existing ->
        ~ In webManifestPattern (buildGlobPatterns g)).
Proof.
  split.
  - destruct (buildGlobPatterns_tests g) as (_ & _ & H3).
    unfold some in H3. apply existsb_exists in H3. exact H3.
  - intros existing -> Hw Hno. unfold buildGlobPatterns.
    pose proof (ensure_spec (fun g => startsWith g "prerendered/")
                  prerenderedPattern existing) as (Ha1 & _ & _ & Hm1 & _).
    set (l1 := if negb (some (fun g => startsWith g "prerendered/") existing)
               then push existing prerenderedPattern else existing) in *.
    pose proof (ensure_spec (fun g => startsWith g "client/")
                  clientPattern l1) as (Ha2 & _ & _ & Hm2 & _).
    set (l2 := if negb (some (fun g => startsWith g "client/") l1)
               then push l1 clientPattern else l1) in *.
    rewrite (Hm2 _ (Hm1 _ Hw)). simpl.
    destruct Ha1 as (a1 & E1 & I1), Ha2 as (a2 & E2 & I2).
    rewrite E2, E1. intros Hin.
    apply in_app_or in Hin as [Hin|Hin];
      [apply in_app_or in Hin as [Hin|Hin]|]; [contradiction| |].
    + apply I1 in Hin. simpl in Hin. destruct Hin as [Hin|[]]. discriminate.
    + apply I2 in Hin. simpl in Hin. destruct Hin as [Hin|[]]. discriminate.
Qed.

Lemma buildGlobPatterns_names_webmanifest_witness :
  ~ In webManifestPattern
      (buildGlobPatterns (Some ["client/**/*.{js,webmanifest}"])).
Proof.
  apply (proj2 (buildGlobPatterns_names_webmanifest
                  (Some ["client/**/*.{js,webmanifest}"]))
           ["client/**/*.{js,webmanifest}"] eq_refl eq_refl).
  simpl. intros [H|[]]. discriminate.
Defined.

(** ** The manifest transform: outcome, order, frame *)

Lemma alterAll_lookup_out f (refs : list nat) (h : list ManifestEntry) l :
  ~ In l refs -> alterAll f refs h !! l = h !! l.
Proof.
  intros Hout. rewrite alterAll_lookup.
  rewrite (proj1 (List.count_occ_not_In Nat.eq_dec refs l) Hout).
  simpl. now destruct (h !! l).
Qed.

Lemma sublist_List_filter {A} (p : A -> bool) (l : list A) :
  List.filter p l `sublist_of` l.
Proof.
  induction l as [|x l IH]; simpl; [constructor|].
  destruct (p x); now constructor.
Qed.

Section TransformExtras.

Context {E C H : Type}.
Variable host : Host E C H.

Implicit Types (h : list ManifestEntry) (entries manifest : list nat).
Implicit Types (options : option (KitOptions E)) (wmn : option string).

(** X5: a [fallbackRevision] supplier that rejects makes the transform
    reject with the supplier's reason. *)
Theorem supplier_failure_rejects_transform
    base outDir wmn options entries h o af err :
  optSpa options = Some (SpaObj o) ->
  fallbackRevision o = Some (Rejected err) ->
  optAdapterFallback options = Some af -> af <> "" ->
  (createManifestTransform host base outDir wmn options entries h).2
  = Rejected err.
Proof.
  intros Hs Hrev Ho Hne.
  rewrite (transform_spa_rejected host base outDir wmn options entries h
             (SpaObj o) af err Hs eq_refl Ho Hne); [reflexivity|].
  unfold fallbackEntry. destruct o as [m s]. simpl in Hrev. now subst s.
Qed.

(** X6: the resulting manifest keeps the order of the input: it is a
    subsequence of the input array followed by the reference of the new
    object, and of the input array alone when the SPA step does not run. *)
Theorem transform_manifest_in_order base outDir wmn options entries h manifest :
  (createManifestTransform host base outDir wmn options entries h).2
  = Resolved manifest ->
  manifest `sublist_of` (entries ++ [length h])%list
  /\ (spaTruthy (optSpa options) && truthy (optAdapterFallback options) = false ->
      manifest `sublist_of` entries).
Proof.
  rewrite transform_eq. cbv zeta.
  set (kept := List.filter _ entries).
  set (h1 := mapEntries _ _ _ kept h).
  intros Hm.
  assert (length h1 = length h) as Hlen by apply mapEntries_length.
  assert (kept `sublist_of` entries) as Hk by apply sublist_List_filter.
  assert (forall h2 m, dropWebManifest wmn h2 m `sublist_of` m) as Hd.
  { intros h2 m. unfold dropWebManifest.
    destruct (negb (truthy wmn)); [reflexivity | apply sublist_List_filter]. }
  split.
  - destruct (pushFallback_cases host outDir options kept h1)
      as [[err Hp]|[Hp|[e Hp]]]; rewrite Hp in Hm; simpl in Hm;
      [discriminate| |]; injection Hm as <-.
    + apply sublist_inserts_r. etransitivity; [apply Hd | exact Hk].
    + etransitivity; [apply Hd|]. rewrite Hlen.
      apply sublist_app; [exact Hk | reflexivity].
  - intros Hoff. rewrite pushFallback_off in Hm by exact Hoff.
    injection Hm as <-. etransitivity; [apply Hd | exact Hk].
Qed.

(** X7: when a web-manifest name is configured, no entry of the resulting
    manifest has it as url, the object of the SPA step included. *)
Theorem transform_never_lists_web_manifest
    base outDir wmn options entries h manifest l :
  truthy wmn = true ->
  (createManifestTransform host base outDir wmn options entries h).2
  = Resolved manifest ->
  In l manifest ->
  urlAt (createManifestTransform host base outDir wmn options entries h).1 l
  <> wmn.
Proof.
  intros Ht Hm Hin.
  destruct (transform_manifest_In host _ _ _ _ _ _ _ _ Hm Hin) as [_ [Hw|Hw]];
    [congruence | exact Hw].
Qed.

(** X8: the transform leaves alone every object of the store that passes
    no [map] callback: those the input array does not list, and, without a
    fallback override, the entries of the default fallback document. *)
Theorem transform_frame base outDir wmn options entries h l :
  (l < length h)%nat ->
  let r := createManifestTransform host base outDir wmn options entries h in
  (~ In l entries -> r.1 !! l = h !! l)
  /\ (truthy (optAdapterFallback options) = false ->
      urlAt h l = Some defaultAdapterFallback -> r.1 !! l = h !! l).
Proof.
  intros Hl r. subst r. rewrite transform_lookup by exact Hl.
  unfold mapEntries. split.
  - intros Hout. apply alterAll_lookup_out. intros Hin.
    apply filter_In in Hin as [Hin _]. contradiction.
  - intros Hf Hu. apply alterAll_lookup_out. intros Hin.
    apply keepEntry_In in Hin as [_ Hk].
    rewrite (fallbackOf_absent _ Hf) in Hk. simpl in Hk.
    destruct Hk; [discriminate | contradiction].
Qed.

(** X9: an entry object is rewritten once per occurrence of its reference
    among the entries that pass the first filter: a reference listed twice
    has its url rewritten twice. *)
Theorem transform_rewrites_per_occurrence base outDir wmn options entries h l :
  (l < length h)%nat ->
  (createManifestTransform host base outDir wmn options entries h).1 !! l
  = Nat.iter
      (count_occ Nat.eq_dec
         (List.filter (keepEntry (fallbackOf options).2 h) entries) l)
      (rewriteEntry base (suffixOf options) (fallbackOf options).1)
    <$> h !! l.
Proof.
  intros Hl. rewrite transform_lookup by exact Hl.
  unfold mapEntries. apply alterAll_lookup.
Qed.

(** X10: the store grows by the one object of the SPA step when that step
    runs and succeeds, and keeps its size otherwise. *)
Theorem transform_store_length base outDir wmn options entries h :
  let r := createManifestTransform host base outDir wmn options entries h in
  length r.1
  = (length h
     + match r.2 with
       | Resolved _ =>
           if spaTruthy (optSpa options) && truthy (optAdapterFallback options)
           then 1 else 0
       | Rejected _ => 0
       end)%nat.
Proof.
  intros r. subst r. rewrite transform_eq. cbv zeta.
  set (kept := List.filter _ entries).
  set (h1 := mapEntries _ _ _ kept h).
  assert (length h1 = length h) as Hlen by apply mapEntries_length.
  destruct (spaTruthy (optSpa options) && truthy (optAdapterFallback options))
    eqn:Hon.
  - apply andb_true_iff in Hon as [Hspa Hf].
    destruct (optSpa options) as [s|] eqn:Hs; [|discriminate].
    destruct (optAdapterFallback options) as [af|] eqn:Ho; [|discriminate].
    apply truthy_Some in Hf.
    rewrite (pushFallback_on host outDir options kept h1 s af Hs Hspa Ho Hf).
    destruct (fallbackEntry host outDir s af); simpl.
    + rewrite length_app, Hlen. reflexivity.
    + lia.
  - rewrite pushFallback_off by exact Hon. simpl. lia.
Qed.

(** X11: without SPA step, without web-manifest name, and with a fallback
    override or no entry of the default fallback document, the resulting
    manifest is the input array itself. *)
Theorem transform_manifest_unchanged base outDir wmn options entries h :
  spaTruthy (optSpa options) && truthy (optAdapterFallback options) = false ->
  truthy wmn = false ->
  truthy (optAdapterFallback options) = true
  \/ (forall l, In l entries -> urlAt h l <> Some defaultAdapterFallback) ->
  (createManifestTransform host base outDir wmn options entries h).2
  = Resolved entries.
Proof.
  intros Hoff Hw Hfb. rewrite transform_eq. cbv zeta.
  rewrite pushFallback_off by exact Hoff. simpl.
  unfold dropWebManifest. rewrite Hw. simpl. f_equal.
  assert (forall l, In l entries -> keepEntry (fallbackOf options).2 h l = true)
    as Hk.
  { intros l Hin. unfold keepEntry, fallbackOf. destruct Hfb as [Ht|Hno].
    - now rewrite Ht.
    - rewrite bool_decide_eq_false_2 by now apply Hno.
      now rewrite andb_false_r. }
  clear -Hk. induction entries as [|x entries IH]; [reflexivity|].
  simpl. rewrite Hk by (simpl; auto). f_equal. apply IH.
  intros l Hin. apply Hk. simpl. auto.
Qed.

End TransformExtras.

Lemma transform_manifest_in_order_witness :
  [0%nat; 1%nat] `sublist_of` ([0; 1; 2]%nat ++ [length
     [mkEntry "client/_app/x.js" "r1" 10;
      mkEntry "prerendered/pages/about.html" "r2" 20;
      mkEntry "prerendered/fallback.html" "r3" 30]])%list.
Proof.
  exact (proj1 (transform_manifest_in_order Sample.host "/" "/out"
                  (Some "manifest.webmanifest") None [0; 1; 2]%nat
                  [mkEntry "client/_app/x.js" "r1" 10;
                   mkEntry "prerendered/pages/about.html" "r2" 20;
                   mkEntry "prerendered/fallback.html" "r3" 30]
                  [0%nat; 1%nat] eq_refl)).
Defined.

Lemma supplier_failure_rejects_transform_witness :
  (createManifestTransform Sample.host "/" "/out" None
     (Sample.kit (Some "200.html")
        (Some (SpaObj (mkSpa None (Some (Rejected "no revision"))))))
     [0%nat] [mkEntry "client/_app/x.js" "r1" 10]).2
  = Rejected "no revision".
Proof.
  assert ("200.html" <> "") as Ha by discriminate.
  exact (supplier_failure_rejects_transform Sample.host "/" "/out" None
           (Sample.kit (Some "200.html")
              (Some (SpaObj (mkSpa None (Some (Rejected "no revision"))))))
           [0%nat] [mkEntry "client/_app/x.js" "r1" 10]
           (mkSpa None (Some (Rejected "no revision"))) "200.html"
           "no revision" eq_refl eq_refl eq_refl Ha).
Defined.

Lemma transform_never_lists_web_manifest_witness :
  urlAt
    (createManifestTransform Sample.host "/" "/out"
       (Some "manifest.webmanifest") None [0; 1]%nat
       [mkEntry "client/manifest.webmanifest" "r1" 10;
        mkEntry "client/_app/x.js" "r2" 20]).1 1%nat
  <> Some "manifest.webmanifest".
Proof.
  assert (In 1%nat [1%nat]) as Hin by (simpl; tauto).
  exact (transform_never_lists_web_manifest Sample.host "/" "/out"
           (Some "manifest.webmanifest") None [0; 1]%nat
           [mkEntry "client/manifest.webmanifest" "r1" 10;
            mkEntry "client/_app/x.js" "r2" 20]
           [1%nat] 1%nat eq_refl eq_refl Hin).
Defined.

Lemma transform_frame_witness :
  let h := [mkEntry "client/_app/x.js" "r1" 10;
            mkEntry "prerendered/fallback.html" "r3" 30;
            mkEntry "client/unlisted.js" "r4" 40] in
  let r := createManifestTransform Sample.host "/" "/out" None None
             [0; 1]%nat h in
  (~ In 1%nat [0; 1]%nat -> r.1 !! 1%nat = h !! 1%nat)
  /\ (truthy (optAdapterFallback (E := string) None) = false ->
      urlAt h 1%nat = Some defaultAdapterFallback -> r.1 !! 1%nat = h !! 1%nat).
Proof.
  assert (1 < length [mkEntry "client/_app/x.js" "r1" 10;
                      mkEntry "prerendered/fallback.html" "r3" 30;
                      mkEntry "client/unlisted.js" "r4" 40])%nat as Hl
    by (simpl; lia).
  exact (transform_frame Sample.host "/" "/out" None None [0; 1]%nat
           [mkEntry "client/_app/x.js" "r1" 10;
            mkEntry "prerendered/fallback.html" "r3" 30;
            mkEntry "client/unlisted.js" "r4" 40] 1%nat Hl).
Defined.

Lemma transform_rewrites_per_occurrence_witness :
  (createManifestTransform Sample.host "/" "/out" None None [0; 0]%nat
     [mkEntry "client/client/x.js" "r" 1]).1 !! 0%nat
  = Nat.iter
      (count_occ Nat.eq_dec
         (List.filter
            (keepEntry (fallbackOf (E := string) None).2
               [mkEntry "client/client/x.js" "r" 1]) [0; 0]%nat) 0%nat)
      (rewriteEntry "/" (suffixOf (E := string) None)
         (fallbackOf (E := string) None).1)
    <$> [mkEntry "client/client/x.js" "r" 1] !! 0%nat.
Proof.
  assert (0 < length [mkEntry "client/client/x.js" "r" 1])%nat as Hl
    by (simpl; lia).
  exact (transform_rewrites_per_occurrence Sample.host "/" "/out" None None
           [0; 0]%nat [mkEntry "client/client/x.js" "r" 1] 0%nat Hl).
Defined.

Lemma transform_manifest_unchanged_witness :
  (createManifestTransform Sample.host "/" "/out" None
     (Sample.kit (Some "200.html") None) [1; 0]%nat
     [mkEntry "client/_app/x.js" "r1" 10;
      mkEntry "prerendered/fallback.html" "r3" 30]).2
  = Resolved [1; 0]%nat.
Proof.
  exact (transform_manifest_unchanged Sample.host "/" "/out" None
           (Sample.kit (Some "200.html") None) [1; 0]%nat
           [mkEntry "client/_app/x.js" "r1" 10;
            mkEntry "prerendered/fallback.html" "r3" 30]
           eq_refl eq_refl (or_introl eq_refl)).
Defined.

(** ** The fallback entry and the host *)

Section HostExtras.

Context {E C H : Type}.
Variable host : Host E C H.

Lemma readStream_shape (stream : ReadStream E C) :
  (exists chunks, stream = emitData chunks OnEnd)
  \/ (exists chunks err, stream = emitData chunks (OnError err)).
Proof.
  induction stream as [chunk rest [[chunks ->]|[chunks [err ->]]]|err|].
  - left. now exists (chunk :: chunks).
  - right. now exists (chunk :: chunks), err.
  - right. now exists [], err.
  - left. now exists [].
Qed.

(** X12: [buildManifestEntry] resolves exactly when the stream of the file
    ends without error, with the url it was given, size 0 and the digest of
    all the chunks, fed in order; it rejects exactly when the stream emits
    an error, with that error. *)
Theorem buildManifestEntry_outcome (url path : string) :
  match buildManifestEntry host url path with
  | Resolved e =>
      exists chunks,
        createReadStream host path = emitData chunks OnEnd
        /\ e = {| url := url; size := 0;
                  revision :=
                    digestHex host (foldl (update host) (createHash host) chunks) |}
  | Rejected err =>
      exists chunks, createReadStream host path = emitData chunks (OnError err)
  end.
Proof.
  unfold buildManifestEntry.
  destruct (readStream_shape (createReadStream host path))
    as [[chunks Hs]|[chunks [err Hs]]]; rewrite Hs.
  - rewrite hashStream_end. now exists chunks.
  - rewrite hashStream_error. now exists chunks.
Qed.

(** X13: the transform reads no file and hashes nothing when the SPA step
    does not run, or runs with a [fallbackRevision] supplier: its result is
    the same on every host. *)
Theorem transform_without_hashing {C' H' : Type} (host' : Host E C' H')
    base outDir wmn (options : option (KitOptions E)) entries h :
  spaTruthy (optSpa options) && truthy (optAdapterFallback options) = false
  \/ (exists o supplied,
         optSpa options = Some (SpaObj o)
         /\ fallbackRevision o = Some supplied) ->
  createManifestTransform host base outDir wmn options entries h
  = createManifestTransform host' base outDir wmn options entries h.
Proof.
  intros Hcase. rewrite !transform_eq. cbv zeta.
  set (kept := List.filter _ entries).
  set (h1 := mapEntries _ _ _ kept h).
  assert (pushFallback host outDir options kept h1
          = pushFallback host' outDir options kept h1) as ->; [|reflexivity].
  destruct Hcase as [Hoff|(o & supplied & Hs & Hrev)].
  - now rewrite !pushFallback_off.
  - unfold pushFallback. rewrite Hs.
    destruct (optAdapterFallback options) as [af|]; [|reflexivity].
    destruct (_ && _); [|reflexivity].
    unfold fallbackEntry. destruct o as [m s]. simpl in Hrev. now subst s.
Qed.

End HostExtras.

Lemma transform_without_hashing_witness :
  createManifestTransform Sample.host "/" "/nowhere" None
    (Sample.kit (Some "200.html")
       (Some (SpaObj (mkSpa None (Some (Resolved "abc"))))))
    [0%nat] [mkEntry "client/_app/x.js" "r1" 10]
  = createManifestTransform
      (mkHost string string (list string) [] (fun cHash _ => cHash)
         (fun _ => "") (fun _ => OnEnd) (fun dir _ => dir))
      "/" "/nowhere" None
      (Sample.kit (Some "200.html")
         (Some (SpaObj (mkSpa None (Some (Resolved "abc"))))))
      [0%nat] [mkEntry "client/_app/x.js" "r1" 10].
Proof.
  apply (transform_without_hashing Sample.host).
  right. exists (mkSpa None (Some (Resolved "abc"))), (Resolved "abc").
  split; reflexivity.
Defined.

(** ** The directory of the built assets *)

Lemma charAt_first (s : string) :
  bool_decide (charAt s 0 = Some "/"%char) = startsWith s "/".
Proof.
  destruct s as [|c s]; [reflexivity|]. unfold startsWith.
  rewrite prefix_cons. change (charAt (String c s) 0) with (Some c).
  destruct (ascii_dec "/" c) as [<-|Hne].
  - rewrite bool_decide_eq_true_2 by reflexivity. now destruct s.
  - apply bool_decide_eq_false_2. congruence.
Qed.

Lemma get_last_app (a : string) (c : ascii) :
  String.get (String.length a) (a +:+ String c "") = Some c.
Proof.
  induction a as [|d a IH]; [reflexivity|]. rewrite string_app_cons. exact IH.
Qed.

Lemma get_last_inv (s : string) (c : ascii) :
  s <> "" -> String.get (String.length s - 1) s = Some c ->
  exists a, s = a +:+ String c "".
Proof.
  induction s as [|d s IH]; [congruence|]. intros _ Hget.
  destruct s as [|d' s].
  - simpl in Hget. injection Hget as ->. now exists "".
  - simpl in Hget. simpl in IH. rewrite Nat.sub_0_r in IH.
    destruct (IH ltac:(discriminate) Hget) as [a Ha].
    exists (String d a). now rewrite string_app_cons, <- Ha.
Qed.

Lemma charAt_last (s : string) :
  bool_decide (charAt s (len s - 1) = Some "/"%char) = endsWith s "/".
Proof.
  destruct (endsWith s "/") eqn:He.
  - apply endsWith_inv in He as [a ->]. apply bool_decide_eq_true_2.
    unfold charAt. rewrite len_app. pose proof (len_nonneg a).
    change (len "/") with 1. destruct (Z.ltb_spec (len a + 1 - 1) 0); [lia|].
    replace (Z.to_nat (len a + 1 - 1)) with (String.length a)
      by (unfold len; lia).
    apply get_last_app.
  - apply bool_decide_eq_false_2. intros Hc. unfold charAt in Hc.
    destruct (Z.ltb_spec (len s - 1) 0); [discriminate|].
    assert (s <> "") as Hne by (intros ->; unfold len in *; simpl in *; lia).
    replace (Z.to_nat (len s - 1)) with (String.length s - 1)%nat in Hc
      by (unfold len; lia).
    destruct (get_last_inv s _ Hne Hc) as [a ->].
    now rewrite (endsWith_app a "/") in He.
Qed.

Lemma buildAssetsDirOf_eq (appDir : option string) :
  buildAssetsDirOf appDir
  = let d := stripLeadingSlash (default "_app/" appDir) in
    if endsWith d "/" then d else d +:+ "/".
Proof.
  unfold buildAssetsDirOf, stripLeadingSlash. cbv zeta.
  now rewrite charAt_first, charAt_last.
Qed.

(** X14: the directory of the built assets always ends in a slash; one
    leading slash of [appDir] makes no difference, and neither does one
    trailing slash; without [appDir] it is [_app/]. *)
Theorem buildAssetsDirOf_normalized :
  buildAssetsDirOf None = "_app/"
  /\ (forall appDir, endsWith (buildAssetsDirOf appDir) "/" = true)
  /\ (forall dir, startsWith dir "/" = false ->
        buildAssetsDirOf (Some ("/" +:+ dir)) = buildAssetsDirOf (Some dir))
  /\ (forall dir, startsWith dir "/" = false -> endsWith dir "/" = false ->
        buildAssetsDirOf (Some (dir +:+ "/")) = buildAssetsDirOf (Some dir)
        /\ buildAssetsDirOf (Some dir) = dir +:+ "/").
Proof.
  split; [reflexivity|]. split; [|split].
  - intros appDir. rewrite buildAssetsDirOf_eq. cbv zeta.
    destruct (endsWith (stripLeadingSlash (default "_app/" appDir)) "/") eqn:He;
      [exact He | apply endsWith_app].
  - intros dir Hd. rewrite !buildAssetsDirOf_eq. cbv zeta. simpl default.
    assert (stripLeadingSlash ("/" +:+ dir) = dir) as ->.
    { unfold stripLeadingSlash. rewrite startsWith_app.
      apply (slice_drop_app "/" dir). }
    assert (stripLeadingSlash dir = dir) as ->; [|reflexivity].
    unfold stripLeadingSlash. now rewrite Hd.
  - intros dir Hs He. destruct dir as [|c dir]; [now split|].
    rewrite !buildAssetsDirOf_eq. cbv zeta. simpl default.
    assert (startsWith (String c dir +:+ "/") "/" = false) as Hs'.
    { rewrite string_app_cons. unfold startsWith in *.
      rewrite prefix_cons in *.
      destruct (ascii_dec "/" c); [destruct dir; discriminate | reflexivity]. }
    unfold stripLeadingSlash. rewrite Hs, Hs', He, endsWith_app. auto.
Qed.

(** ** The glob builders, on an optional list *)

Lemma buildGlobPatterns_extends (g : option (list string)) :
  exists added, buildGlobPatterns g = (default [] g ++ added)%list.
Proof.
  destruct g as [existing|]; [|now eexists]. unfold buildGlobPatterns.
  pose proof (ensure_spec (fun g => startsWith g "prerendered/")
                prerenderedPattern existing) as ((a1 & E1 & _) & _).
  set (l1 := if negb (some (fun g => startsWith g "prerendered/") existing)
             then push existing prerenderedPattern else existing) in *.
  pose proof (ensure_spec (fun g => startsWith g "client/")
                clientPattern l1) as ((a2 & E2 & _) & _).
  set (l2 := if negb (some (fun g => startsWith g "client/") l1)
             then push l1 clientPattern else l1) in *.
  pose proof (ensure_spec (fun g => includes g "webmanifest")
                webManifestPattern l2) as ((a3 & E3 & _) & _).
  exists (a1 ++ a2 ++ a3)%list. simpl default.
  now rewrite E3, E2, E1, <- !List.app_assoc.
Qed.

Lemma buildGlobIgnores_extends (g : option (list string)) :
  (exists added, buildGlobIgnores g = (default [] g ++ added)%list)
  /\ some (fun g => startsWith g "server/") (buildGlobIgnores g) = true.
Proof.
  destruct g as [existing|]; [|split; [now eexists | reflexivity]].
  unfold buildGlobIgnores.
  pose proof (ensure_spec (fun g => startsWith g "server/")
                serverIgnore existing) as ((a & Ea & _) & Hs & _).
  split; [now exists a | now apply Hs].
Qed.

Lemma buildGlobPatterns_idem_lemma (g : option (list string)) :
  buildGlobPatterns (Some (buildGlobPatterns g)) = buildGlobPatterns g.
Proof.
  destruct (buildGlobPatterns_tests g) as (H1 & H2 & H3).
  now apply buildGlobPatterns_fixed.
Qed.

Lemma buildGlobIgnores_idem_lemma (g : option (list string)) :
  buildGlobIgnores (Some (buildGlobIgnores g)) = buildGlobIgnores g.
Proof.
  destruct g as [existing|]; [|reflexivity]. unfold buildGlobIgnores.
  destruct (some (fun g => startsWith g "server/") existing) eqn:Hs; simpl.
  - now rewrite Hs.
  - now rewrite some_push, Hs.
Qed.

(** ** The configuration of the plugin options *)

Section ConfigureFacts.

Context {E U R : Type}.
Variable pathResolve : string -> string -> string.
Variable newRegExp : string -> Completion E R.

Implicit Types (kit : KitOptions E) (paths : Kit.Paths).
Implicit Types (viteOptions : Vite.ResolvedConfig).
Implicit Types (options : PwaOptions E U R) (config : GlobConfig E U R).

Lemma configure_eq kit paths viteOptions options :
  configureSvelteKitOptions pathResolve newRegExp kit paths viteOptions options
  = let base := baseOf paths viteOptions in
    let oc := selectConfig (adapterFallback kit) base (setIncludeManifestIcons options) in
    let config := setGlobs paths (outDirOf paths viteOptions) oc.2 in
    match setDontCacheBust newRegExp (buildAssetsDirOf (Kit.appDir paths)) config with
    | Throw err => (storeConfig oc.1 config, Some err)
    | Normal config =>
        (setIntegration pathResolve base (Vite.root viteOptions)
           (assetsOf paths) (outDirOf paths viteOptions)
           (storeConfig oc.1
              (setManifestTransforms base (webManifestNameOf oc.1) kit config)),
         None)
    end.
Proof.
  unfold configureSvelteKitOptions, setGlobs. cbv zeta.
  now destruct (selectConfig _ _ _).
Qed.

Lemma setIncludeManifestIcons_strategies options :
  strategies (setIncludeManifestIcons options) = strategies options.
Proof. unfold setIncludeManifestIcons. now destruct (negb _). Qed.

Lemma setIncludeManifestIcons_activeConfig options :
  activeConfig (setIncludeManifestIcons options) = activeConfig options.
Proof. unfold setIncludeManifestIcons, activeConfig. now destruct (negb _). Qed.

Lemma selectConfig_strategies af base options :
  strategies (selectConfig af base options).1 = strategies options.
Proof. unfold selectConfig. now destruct (bool_decide _). Qed.

Lemma selectConfig_active af base options :
  activeConfig (selectConfig af base options).1
  = Some (selectConfig af base options).2.
Proof.
  unfold selectConfig, activeConfig.
  destruct (bool_decide (strategies options = Some "injectManifest")) eqn:Hs;
    simpl; now rewrite Hs.
Qed.

(** The strategy branch touches, of the [config] object, the
    [navigateFallback] key only. *)
Lemma selectConfig_fields af base options :
  let caller := default emptyConfig (activeConfig options) in
  let config := (selectConfig af base options).2 in
  globDirectory config = globDirectory caller
  /\ modifyURLPrefix config = modifyURLPrefix caller
  /\ globPatterns config = globPatterns caller
  /\ globIgnores config = globIgnores caller
  /\ dontCacheBustURLsMatching config = dontCacheBustURLsMatching caller
  /\ manifestTransforms config = manifestTransforms caller.
Proof.
  unfold selectConfig, activeConfig.
  destruct (bool_decide (strategies options = Some "injectManifest")); simpl;
    [repeat split|].
  now destruct (negb _).
Qed.

Lemma storeConfig_strategies options config :
  strategies (storeConfig options config) = strategies options.
Proof. unfold storeConfig. now destruct (bool_decide _). Qed.

Lemma storeConfig_active options config :
  activeConfig (storeConfig options config) = Some config.
Proof.
  unfold storeConfig, activeConfig.
  destruct (bool_decide (strategies options = Some "injectManifest")) eqn:Hs;
    simpl; now rewrite Hs.
Qed.

Lemma setIntegration_active base root assets outDir options :
  activeConfig (setIntegration pathResolve base root assets outDir options)
  = activeConfig options.
Proof. unfold setIntegration. now destruct (isSome _). Qed.

Lemma setGlobs_fields paths viteOptions config :
  let config' := setGlobs paths (outDirOf paths viteOptions) config in
  navigateFallback config' = navigateFallback config
  /\ globDirectory config'
     = (if truthy (globDirectory config) then globDirectory config
        else Some (outDirOf paths viteOptions +:+ "/output"))
  /\ modifyURLPrefix config' = modifyURLPrefix config
  /\ globPatterns config'
     = (if isSome (modifyURLPrefix config) then globPatterns config
        else Some (buildGlobPatterns (globPatterns config)
                   ++ if truthyBool (Kit.includeVersionFile paths)
                      then ["client/" +:+ buildAssetsDirOf (Kit.appDir paths)
                            +:+ "version.json"]
                      else [])%list)
  /\ globIgnores config' = Some (buildGlobIgnores (globIgnores config))
  /\ dontCacheBustURLsMatching config' = dontCacheBustURLsMatching config
  /\ manifestTransforms config' = manifestTransforms config.
Proof.
  unfold setGlobs, setGlobIgnores, setGlobPatterns, setGlobDirectory, push.
  destruct (truthy (globDirectory config)); simpl;
    destruct (isSome (modifyURLPrefix config)); simpl;
    destruct (truthyBool (Kit.includeVersionFile paths)); simpl;
    rewrite ?app_nil_r; repeat split.
Qed.

Lemma setDontCacheBust_fields dir config config' :
  setDontCacheBust newRegExp dir config = Normal config' ->
  navigateFallback config' = navigateFallback config
  /\ globDirectory config' = globDirectory config
  /\ modifyURLPrefix config' = modifyURLPrefix config
  /\ globPatterns config' = globPatterns config
  /\ globIgnores config' = globIgnores config
  /\ manifestTransforms config' = manifestTransforms config
  /\ isSome (dontCacheBustURLsMatching config') = true
  /\ (isSome (dontCacheBustURLsMatching config) = true -> config' = config).
Proof.
  unfold setDontCacheBust.
  destruct (isSome (dontCacheBustURLsMatching config)) eqn:Hd; simpl.
  - intros [= <-]. rewrite Hd. repeat split.
  - destruct (newRegExp _); [|discriminate]. intros [= <-]. simpl.
    repeat split. discriminate.
Qed.

Lemma setManifestTransforms_fields base wmn kit config :
  let config' := setManifestTransforms base wmn kit config in
  navigateFallback config' = navigateFallback config
  /\ globDirectory config' = globDirectory config
  /\ modifyURLPrefix config' = modifyURLPrefix config
  /\ globPatterns config' = globPatterns config
  /\ globIgnores config' = globIgnores config
  /\ dontCacheBustURLsMatching config' = dontCacheBustURLsMatching config
  /\ manifestTransforms config'
     = match manifestTransforms config with
       | Some ts => Some ts
       | None =>
           Some [KitTransform base (default "" (globDirectory config)) wmn kit]
       end.
Proof.
  unfold setManifestTransforms.
  destruct (manifestTransforms config) eqn:Ht; simpl; rewrite ?Ht;
    repeat split.
Qed.

(** The [config] object the call leaves, whether it throws or not. *)
Lemma configure_active kit paths viteOptions options :
  let r := configureSvelteKitOptions pathResolve newRegExp kit paths
             viteOptions options in
  let globs :=
    setGlobs paths (outDirOf paths viteOptions)
      (selectConfig (adapterFallback kit) (baseOf paths viteOptions)
         (setIncludeManifestIcons options)).2 in
  exists config,
    activeConfig r.1 = Some config
    /\ globDirectory config = globDirectory globs
    /\ modifyURLPrefix config = modifyURLPrefix globs
    /\ globPatterns config = globPatterns globs
    /\ globIgnores config = globIgnores globs
    /\ navigateFallback config = navigateFallback globs.
Proof.
  intros r globs. subst r. rewrite configure_eq. cbv zeta. fold globs.
  destruct (setDontCacheBust newRegExp _ globs) as [config|err] eqn:Hd; simpl.
  - rewrite setIntegration_active, storeConfig_active. eexists.
    split; [reflexivity|].
    destruct (setDontCacheBust_fields _ _ _ Hd) as (H1 & H2 & H3 & H4 & H5 & _).
    pose proof (setManifestTransforms_fields (baseOf paths viteOptions)
                  (webManifestNameOf
                     (selectConfig (adapterFallback kit)
                        (baseOf paths viteOptions) (setIncludeManifestIcons options)).1)
                  kit config) as (G1 & G2 & G3 & G4 & G5 & _).
    cbv zeta in *. now rewrite G1, G2, G3, G4, G5, H1, H2, H3, H4, H5.
  - rewrite storeConfig_active. exists globs. repeat split.
Qed.

(** X15: whether it throws or not, the call extends the glob lists of the
    caller and never replaces them: the ignores start with the caller's and
    hold an entry under [server/]; the patterns start with the caller's, hold
    entries under [client/] and [prerendered/], and end with the version
    file when [includeVersionFile] is set; with a [modifyURLPrefix], the
    patterns are left as they are. *)
Theorem configure_extends_caller_globs kit paths viteOptions options :
  let r := configureSvelteKitOptions pathResolve newRegExp kit paths
             viteOptions options in
  let caller := default emptyConfig (activeConfig options) in
  exists config ignores,
    activeConfig r.1 = Some config
    /\ modifyURLPrefix config = modifyURLPrefix caller
    /\ globIgnores config = Some ignores
    /\ (exists added, ignores = (default [] (globIgnores caller) ++ added)%list)
    /\ some (fun g => startsWith g "server/") ignores = true
    /\ (isSome (modifyURLPrefix caller) = true ->
        globPatterns config = globPatterns caller)
    /\ (isSome (modifyURLPrefix caller) = false ->
        exists patterns added,
          globPatterns config = Some patterns
          /\ patterns = (default [] (globPatterns caller) ++ added)%list
          /\ some (fun g => startsWith g "client/") patterns = true
          /\ some (fun g => startsWith g "prerendered/") patterns = true
          /\ (truthyBool (Kit.includeVersionFile paths) = true ->
              last patterns
              = Some ("client/" +:+ buildAssetsDirOf (Kit.appDir paths)
                      +:+ "version.json"))).
Proof.
  intros r caller.
  destruct (configure_active kit paths viteOptions options)
    as (config & Hact & _ & Hm & Hp & Hi & _). fold r in Hact.
  pose proof (setGlobs_fields paths viteOptions
                (selectConfig (adapterFallback kit) (baseOf paths viteOptions)
                   (setIncludeManifestIcons options)).2)
    as (_ & _ & Gm & Gp & Gi & _).
  pose proof (selectConfig_fields (adapterFallback kit)
                (baseOf paths viteOptions) (setIncludeManifestIcons options))
    as (_ & Sm & Sp & Si & _).
  cbv zeta in *. rewrite setIncludeManifestIcons_activeConfig in Sm, Sp, Si.
  fold caller in Sm, Sp, Si.
  rewrite Gm, Sm in Hm. rewrite Gi, Si in Hi. rewrite Gp, Sm, Sp in Hp.
  destruct (buildGlobIgnores_extends (globIgnores caller)) as [Hadd Hsrv].
  exists config, (buildGlobIgnores (globIgnores caller)).
  split; [exact Hact|]. split; [exact Hm|]. split; [exact Hi|].
  split; [exact Hadd|]. split; [exact Hsrv|]. split.
  - intros Hmod. now rewrite Hmod in Hp.
  - intros Hmod. rewrite Hmod in Hp.
    destruct (buildGlobPatterns_extends (globPatterns caller)) as [added Hb].
    destruct (buildGlobPatterns_tests (globPatterns caller)) as (T1 & T2 & _).
    eexists. eexists. split; [exact Hp|]. split.
    + rewrite Hb, <- List.app_assoc. reflexivity.
    + split; [now apply some_app_l|]. split; [now apply some_app_l|].
      intros ->. apply last_snoc.
Qed.

(** The manifest transforms and the glob directory after the call. *)
Lemma configure_transforms_eq kit paths viteOptions options :
  let r := configureSvelteKitOptions pathResolve newRegExp kit paths
             viteOptions options in
  let caller := default emptyConfig (activeConfig options) in
  exists config,
    activeConfig r.1 = Some config
    /\ globDirectory config
       = (if truthy (globDirectory caller) then globDirectory caller
          else Some (outDirOf paths viteOptions +:+ "/output"))
    /\ manifestTransforms config
       = match manifestTransforms caller with
         | Some ts => Some ts
         | None =>
             if isSome r.2 then None
             else Some [KitTransform (baseOf paths viteOptions)
                          (default "" (globDirectory config))
                          (if bool_decide
                                (strategies options = Some "injectManifest")
                           then None
                           else Some (default "manifest.webmanifest"
                                        (manifestFilename options)))
                          kit]
         end.
Proof.
  intros r caller. subst r. rewrite configure_eq. cbv zeta.
  set (oc := selectConfig _ _ _).
  pose proof (setGlobs_fields paths viteOptions oc.2)
    as (_ & Gd & _ & _ & _ & _ & Gt).
  pose proof (selectConfig_fields (adapterFallback kit)
                (baseOf paths viteOptions) (setIncludeManifestIcons options))
    as (Sd & _ & _ & _ & _ & St).
  cbv zeta in *. fold oc in Sd, St.
  rewrite setIncludeManifestIcons_activeConfig in Sd, St.
  fold caller in Sd, St. rewrite Sd in Gd. rewrite St in Gt.
  assert (webManifestNameOf oc.1
          = if bool_decide (strategies options = Some "injectManifest")
            then None
            else Some (default "manifest.webmanifest" (manifestFilename options)))
    as Hw.
  { unfold webManifestNameOf. subst oc.
    rewrite selectConfig_strategies, setIncludeManifestIcons_strategies.
    unfold selectConfig, setIncludeManifestIcons.
    destruct (negb (isSome _)); simpl;
      now destruct (bool_decide (strategies options = Some "injectManifest")). }
  destruct (setDontCacheBust newRegExp _ _) as [config|err] eqn:Hd; simpl.
  - destruct (setDontCacheBust_fields _ _ _ Hd)
      as (_ & Hgd & _ & _ & _ & Hmt & _).
    pose proof (setManifestTransforms_fields (baseOf paths viteOptions)
                  (webManifestNameOf oc.1) kit config)
      as (_ & Md & _ & _ & _ & _ & Mt).
    cbv zeta in *.
    rewrite setIntegration_active, storeConfig_active. eexists.
    split; [reflexivity|]. rewrite Md, Mt, Hgd, Hmt, Gd, Gt, Hw.
    split; reflexivity.
  - rewrite storeConfig_active. eexists. split; [reflexivity|].
    split; [exact Gd|]. rewrite Gt. now destruct (manifestTransforms caller).
Qed.

(** X16: manifest transforms of the caller are never replaced, an empty
    list included; without any, and when the call does not throw, the list
    holds the one transform of the kit, made for the base, the glob
    directory of the configuration, the kit options, and for the name of
    the web manifest: none under the [injectManifest] strategy,
    [manifestFilename] or else [manifest.webmanifest] otherwise. *)
Theorem configure_manifest_transforms kit paths viteOptions options :
  let r := configureSvelteKitOptions pathResolve newRegExp kit paths
             viteOptions options in
  let caller := default emptyConfig (activeConfig options) in
  exists config,
    activeConfig r.1 = Some config
    /\ (forall ts, manifestTransforms caller = Some ts ->
          manifestTransforms config = Some ts)
    /\ (manifestTransforms caller = None -> r.2 = None ->
        exists dir,
          globDirectory config = Some dir /\ dir <> ""
          /\ dir = (if truthy (globDirectory caller)
                    then default "" (globDirectory caller)
                    else outDirOf paths viteOptions +:+ "/output")
          /\ manifestTransforms config
             = Some [KitTransform (baseOf paths viteOptions) dir
                       (if bool_decide (strategies options = Some "injectManifest")
                        then None
                        else Some (default "manifest.webmanifest"
                                     (manifestFilename options)))
                       kit]).
Proof.
  intros r caller.
  destruct (configure_transforms_eq kit paths viteOptions options)
    as (config & Hact & Hdir & Ht). fold r caller in Hact, Hdir, Ht.
  exists config. split; [exact Hact|]. split.
  - intros ts Hts. now rewrite Hts in Ht.
  - intros Hnone Hok. rewrite Hnone, Hok in Ht. simpl in Ht.
    exists (default "" (globDirectory config)).
    rewrite Hdir in *.
    destruct (truthy (globDirectory caller)) eqn:Htr.
    + destruct (globDirectory caller) as [d|]; [|discriminate].
      apply truthy_Some in Htr. now repeat split.
    + repeat split; [|exact Ht]. simpl.
      apply app_neq_by_len. simpl. lia.
Qed.

(** What the call throws, if anything. *)
Lemma configure_outcome kit paths viteOptions options :
  (configureSvelteKitOptions pathResolve newRegExp kit paths viteOptions
     options).2
  = match dontCacheBustURLsMatching
            (default emptyConfig (activeConfig options)) with
    | Some _ => None
    | None =>
        match newRegExp (buildAssetsDirOf (Kit.appDir paths) +:+ "immutable/") with
        | Normal _ => None
        | Throw err => Some err
        end
    end.
Proof.
  rewrite configure_eq. cbv zeta.
  set (oc := selectConfig _ _ _).
  pose proof (setGlobs_fields paths viteOptions oc.2)
    as (_ & _ & _ & _ & _ & Gc & _).
  pose proof (selectConfig_fields (adapterFallback kit)
                (baseOf paths viteOptions) (setIncludeManifestIcons options))
    as (_ & _ & _ & _ & Sc & _).
  cbv zeta in *. fold oc in Sc.
  rewrite setIncludeManifestIcons_activeConfig in Sc. rewrite Sc in Gc.
  unfold setDontCacheBust. rewrite Gc. clear Gc Sc.
  destruct (dontCacheBustURLsMatching
              (default emptyConfig (activeConfig options))) as [v|]; simpl;
    [reflexivity|].
  now destruct (newRegExp _).
Qed.

(** The fields of the options object itself, after the call. *)
Lemma configure_options_fields kit paths viteOptions options :
  let r := configureSvelteKitOptions pathResolve newRegExp kit paths
             viteOptions options in
  includeManifestIcons r.1
  = Some (default false (includeManifestIcons options))
  /\ strategies r.1 = strategies options
  /\ manifestFilename r.1 = manifestFilename options
  /\ (strategies options = Some "injectManifest" ->
      workbox r.1 = workbox options
      /\ srcDir r.1 = (if truthy (srcDir options) then srcDir options
                       else Some "src")
      /\ filename r.1 = (if truthy (filename options) then filename options
                         else Some "service-worker.js"))
  /\ (strategies options <> Some "injectManifest" ->
      injectManifest r.1 = injectManifest options
      /\ srcDir r.1 = srcDir options /\ filename r.1 = filename options)
  /\ pwaAssets r.1
     = (if isSome (pwaAssets options) && negb (isSome r.2)
        then Some (Some {| Integration.baseUrl := baseOf paths viteOptions;
                           Integration.publicDir :=
                             pathResolve (Vite.root viteOptions) (assetsOf paths);
                           Integration.outDir :=
                             pathResolve (outDirOf paths viteOptions)
                               "output/client" |})
        else pwaAssets options).
Proof.
  intros r. subst r. rewrite configure_eq. cbv zeta.
  destruct options as [icons strat src file inj wb mf pwa].
  unfold selectConfig, setIncludeManifestIcons, storeConfig, setIntegration.
  simpl.
  destruct (setDontCacheBust newRegExp _ _) as [config|err]; simpl;
    destruct icons as [b|]; simpl;
    destruct (bool_decide (strat = Some "injectManifest")) eqn:Hs; simpl;
    rewrite ?Hs; simpl;
    try (apply bool_decide_eq_true_1 in Hs);
    try (apply bool_decide_eq_false_1 in Hs);
    destruct pwa as [p|]; simpl;
    rewrite ?andb_false_r;
    (split; [reflexivity|]); (split; [reflexivity|]);
    (split; [reflexivity|]);
    (split; [intros Hi; try contradiction;
             destruct (truthy src), (truthy file); repeat split|]);
    (split; [intros Hi; try contradiction; repeat split | reflexivity]).
Qed.

(** X18: the strategies do not touch each other's object.  Under
    [injectManifest], [workbox] is left as it is, no [navigateFallback] is
    set, and [srcDir] and [filename] get their defaults when empty; under
    any other strategy, [injectManifest], [srcDir] and [filename] are left as
    they are, and [navigateFallback] keeps what the caller assigned to the
    key, [null] included, or else is [adapterFallback ?? base]. *)
Theorem configure_strategy_objects kit paths viteOptions options :
  let r := configureSvelteKitOptions pathResolve newRegExp kit paths
             viteOptions options in
  (strategies options = Some "injectManifest" ->
   workbox r.1 = workbox options
   /\ truthy (srcDir r.1) = true /\ truthy (filename r.1) = true
   /\ (truthy (srcDir options) = true -> srcDir r.1 = srcDir options)
   /\ (truthy (filename options) = true -> filename r.1 = filename options)
   /\ exists config,
       injectManifest r.1 = Some config
       /\ navigateFallback config
          = navigateFallback (default emptyConfig (injectManifest options)))
  /\ (strategies options <> Some "injectManifest" ->
      injectManifest r.1 = injectManifest options
      /\ srcDir r.1 = srcDir options /\ filename r.1 = filename options
      /\ exists config,
          workbox r.1 = Some config
          /\ navigateFallback config
             = Some match navigateFallback (default emptyConfig (workbox options)) with
                    | Some assigned => assigned
                    | None =>
                        Some (default (baseOf paths viteOptions)
                                (adapterFallback kit))
                    end).
Proof.
  intros r.
  destruct (configure_options_fields kit paths viteOptions options)
    as (_ & Hstrat & _ & Hinj & Hwb & _). fold r in Hstrat, Hinj, Hwb.
  destruct (configure_active kit paths viteOptions options)
    as (config & Hact & _ & _ & _ & _ & Hnf). fold r in Hact.
  pose proof (setGlobs_fields paths viteOptions
                (selectConfig (adapterFallback kit) (baseOf paths viteOptions)
                   (setIncludeManifestIcons options)).2) as (Gn & _).
  cbv zeta in Gn. rewrite Gn in Hnf. clear Gn.
  unfold activeConfig in Hact. rewrite Hstrat in Hact.
  unfold selectConfig in Hnf.
  rewrite setIncludeManifestIcons_strategies in Hnf.
  assert (injectManifest (setIncludeManifestIcons options)
          = injectManifest options
          /\ workbox (setIncludeManifestIcons options) = workbox options)
    as [Ei Ew].
  { unfold setIncludeManifestIcons.
    destruct (negb (isSome (includeManifestIcons options))); now split. }
  split; intros Hs.
  - destruct (Hinj Hs) as (H1 & H2 & H3).
    rewrite bool_decide_eq_true_2 in Hact, Hnf by exact Hs. simpl in Hnf.
    rewrite Ei in Hnf.
    split; [exact H1|]. rewrite H2, H3.
    split; [now destruct (truthy (srcDir options)) eqn:Ht|].
    split; [now destruct (truthy (filename options)) eqn:Ht|].
    split; [now intros ->|]. split; [now intros ->|].
    now exists config.
  - destruct (Hwb Hs) as (H1 & H2 & H3).
    rewrite bool_decide_eq_false_2 in Hact, Hnf by exact Hs. simpl in Hnf.
    rewrite Ew in Hnf.
    split; [exact H1|]. split; [exact H2|]. split; [exact H3|].
    exists config. split; [exact Hact|]. rewrite Hnf.
    destruct (navigateFallback (default emptyConfig (workbox options)))
      eqn:Hn; simpl; [exact Hn | reflexivity].
Qed.

Lemma globConfig_ext config config' :
  navigateFallback config' = navigateFallback config ->
  globDirectory config' = globDirectory config ->
  modifyURLPrefix config' = modifyURLPrefix config ->
  globPatterns config' = globPatterns config ->
  globIgnores config' = globIgnores config ->
  dontCacheBustURLsMatching config' = dontCacheBustURLsMatching config ->
  manifestTransforms config' = manifestTransforms config ->
  config' = config.
Proof. destruct config, config'. simpl. now intros -> -> -> -> -> -> ->. Qed.

Lemma truthy_app_nonempty (a b : string) :
  b <> "" -> truthy (Some (a +:+ b)) = true.
Proof.
  intros Hb. apply truthy_Some. apply app_neq_by_len.
  destruct b; [contradiction | simpl; lia].
Qed.

(** On options that need nothing more, the call changes nothing. *)
Lemma configure_fixed kit paths viteOptions options :
  configured pathResolve paths viteOptions options ->
  truthyBool (Kit.includeVersionFile paths) = false
  \/ isSome (modifyURLPrefix (default emptyConfig (activeConfig options))) = true ->
  configureSvelteKitOptions pathResolve newRegExp kit paths viteOptions options
  = (options, None).
Proof.
  intros (Hic & Hpwa & c & Hact & Hinj & Hwb & Hgd & Hpat
          & (ignores & Hi & Hifix) & Hdc & Hmt) Hcond.
  rewrite Hact in Hcond. simpl in Hcond.
  assert (setGlobs paths (outDirOf paths viteOptions) c = c) as Hglobs.
  { pose proof (setGlobs_fields paths viteOptions c)
      as (Gn & Gd & Gm & Gp & Gi & Gc & Gt). cbv zeta in *.
    apply globConfig_ext; auto.
    - rewrite Gd. now rewrite Hgd.
    - rewrite Gp. destruct (isSome (modifyURLPrefix c)) eqn:Hm; [reflexivity|].
      destruct (Hpat eq_refl) as (patterns & Hp & Hpfix).
      rewrite Hp, Hpfix. destruct Hcond as [->|?]; [|discriminate].
      now rewrite app_nil_r.
    - rewrite Gi, Hi. now rewrite Hifix. }
  assert (setDontCacheBust newRegExp (buildAssetsDirOf (Kit.appDir paths)) c
          = Normal c) as Hdont.
  { unfold setDontCacheBust. now rewrite Hdc. }
  assert (forall base wmn, setManifestTransforms base wmn kit c = c) as Htrans.
  { intros base wmn. unfold setManifestTransforms. now rewrite Hmt. }
  assert (setIncludeManifestIcons options = options) as Hicons.
  { unfold setIncludeManifestIcons. now rewrite Hic. }
  assert (selectConfig (adapterFallback kit) (baseOf paths viteOptions) options
          = (options, c)) as Hsel.
  { unfold selectConfig. unfold activeConfig in Hact.
    destruct options as [icons strat src file inj wb mf pwa]. simpl in *.
    destruct (bool_decide (strat = Some "injectManifest")) eqn:Hs.
    - apply bool_decide_eq_true_1 in Hs. destruct (Hinj Hs) as [-> ->].
      subst inj. reflexivity.
    - apply bool_decide_eq_false_1 in Hs. subst wb. simpl.
      now rewrite (Hwb Hs). }
  assert (storeConfig options c = options) as Hstore.
  { unfold storeConfig. unfold activeConfig in Hact.
    destruct options as [icons strat src file inj wb mf pwa]. simpl in *.
    destruct (bool_decide (strat = Some "injectManifest")); now subst. }
  assert (setIntegration pathResolve (baseOf paths viteOptions)
            (Vite.root viteOptions) (assetsOf paths)
            (outDirOf paths viteOptions) options = options) as Hint.
  { unfold setIntegration.
    destruct options as [icons strat src file inj wb mf pwa]. simpl in *.
    destruct Hpwa as [->| ->]; reflexivity. }
  unfold configureSvelteKitOptions. rewrite Hicons, Hsel.
  unfold setGlobs in Hglobs. rewrite Hglobs, Hdont, Htrans, Hstore, Hint.
  reflexivity.
Qed.

(** The [config] object after a call that does not throw. *)
Lemma configure_active_normal kit paths viteOptions options :
  let r := configureSvelteKitOptions pathResolve newRegExp kit paths
             viteOptions options in
  let caller := default emptyConfig (activeConfig options) in
  r.2 = None ->
  exists config,
    activeConfig r.1 = Some config
    /\ (strategies options <> Some "injectManifest" ->
        isSome (navigateFallback config) = true)
    /\ globDirectory config
       = (if truthy (globDirectory caller) then globDirectory caller
          else Some (outDirOf paths viteOptions +:+ "/output"))
    /\ modifyURLPrefix config = modifyURLPrefix caller
    /\ globPatterns config
       = (if isSome (modifyURLPrefix caller) then globPatterns caller
          else Some (buildGlobPatterns (globPatterns caller)
                     ++ if truthyBool (Kit.includeVersionFile paths)
                        then ["client/" +:+ buildAssetsDirOf (Kit.appDir paths)
                              +:+ "version.json"]
                        else [])%list)
    /\ globIgnores config = Some (buildGlobIgnores (globIgnores caller))
    /\ isSome (dontCacheBustURLsMatching config) = true
    /\ isSome (manifestTransforms config) = true.
Proof.
  intros r caller. subst r. rewrite configure_eq. cbv zeta.
  set (oc := selectConfig _ _ _).
  pose proof (setGlobs_fields paths viteOptions oc.2)
    as (Gn & Gd & Gm & Gp & Gi & _ & _).
  pose proof (selectConfig_fields (adapterFallback kit)
                (baseOf paths viteOptions) (setIncludeManifestIcons options))
    as (Sd & Sm & Sp & Si & _).
  cbv zeta in *. fold oc in Sd, Sm, Sp, Si.
  rewrite setIncludeManifestIcons_activeConfig in Sd, Sm, Sp, Si.
  fold caller in Sd, Sm, Sp, Si.
  destruct (setDontCacheBust newRegExp _ _) as [config|err] eqn:Hd; simpl;
    [intros _ | discriminate].
  destruct (setDontCacheBust_fields _ _ _ Hd)
    as (Dn & Dd & Dm & Dp & Di & _ & Dc & _).
  pose proof (setManifestTransforms_fields (baseOf paths viteOptions)
                (webManifestNameOf oc.1) kit config)
    as (Mn & Md & Mm & Mp & Mi & Mc & Mt).
  cbv zeta in *.
  rewrite setIntegration_active, storeConfig_active. eexists.
  split; [reflexivity|].
  rewrite Mn, Md, Mm, Mp, Mi, Mc, Mt, Dn, Dd, Dm, Dp, Di, Gn, Gd, Gm, Gp, Gi.
  rewrite Sd, Sm, Sp, Si.
  split; [|repeat split].
  - intros Hs. subst oc. unfold selectConfig.
    rewrite setIncludeManifestIcons_strategies.
    rewrite bool_decide_eq_false_2 by exact Hs. simpl.
    destruct (navigateFallback
                (default emptyConfig
                   (workbox (setIncludeManifestIcons options)))) eqn:Hn;
      simpl; [now rewrite Hn | reflexivity].
  - exact Dc.
  - now destruct (manifestTransforms config).
Qed.

(** A call that does not throw leaves options that need nothing more,
    unless it pushed the version file. *)
Lemma configure_configured kit paths viteOptions options :
  let r := configureSvelteKitOptions pathResolve newRegExp kit paths
             viteOptions options in
  r.2 = None ->
  truthyBool (Kit.includeVersionFile paths) = false
  \/ isSome (modifyURLPrefix (default emptyConfig (activeConfig options))) = true ->
  configured pathResolve paths viteOptions r.1.
Proof.
  intros r Hok Hcond.
  destruct (configure_options_fields kit paths viteOptions options)
    as (Hic & Hstrat & _ & Hinj & _ & Hpwa). fold r in Hic, Hstrat, Hinj, Hpwa.
  rewrite Hok in Hpwa. simpl in Hpwa. rewrite andb_true_r in Hpwa.
  destruct (configure_active_normal kit paths viteOptions options Hok)
    as (config & Hact & Hnf & Hgd & Hm & Hp & Hi & Hdc & Hmt).
  fold r in Hact.
  split; [now rewrite Hic|]. split.
  { rewrite Hpwa. destruct (pwaAssets options); simpl; auto. }
  exists config. split; [exact Hact|].
  split; [|split; [|split; [|split; [|split; [|split]]]]].
  - rewrite Hstrat. intros Hs. destruct (Hinj Hs) as (_ & -> & ->). split.
    + now destruct (truthy (srcDir options)) eqn:Ht.
    + now destruct (truthy (filename options)) eqn:Ht.
  - rewrite Hstrat. exact Hnf.
  - rewrite Hgd. destruct (truthy (globDirectory _)) eqn:Ht; [exact Ht|].
    apply truthy_app_nonempty. discriminate.
  - rewrite Hm. intros Hmod. rewrite Hmod in Hp, Hcond.
    destruct Hcond as [Hv|?]; [|discriminate]. rewrite Hv in Hp.
    eexists. split; [exact Hp|]. rewrite app_nil_r.
    apply buildGlobPatterns_idem_lemma.
  - eexists. split; [exact Hi|]. apply buildGlobIgnores_idem_lemma.
  - exact Hdc.
  - exact Hmt.
Qed.

(** X19: a call that does not throw, without [includeVersionFile] or with
    a [modifyURLPrefix], leaves options on which a second call changes
    nothing and does not throw. *)
Theorem configure_idempotent kit paths viteOptions options :
  let r := configureSvelteKitOptions pathResolve newRegExp kit paths
             viteOptions options in
  r.2 = None ->
  truthyBool (Kit.includeVersionFile paths) = false
  \/ isSome (modifyURLPrefix (default emptyConfig (activeConfig options))) = true ->
  configureSvelteKitOptions pathResolve newRegExp kit paths viteOptions r.1
  = (r.1, None).
Proof.
  intros r Hok Hcond. apply configure_fixed.
  - now apply configure_configured.
  - destruct Hcond as [Hv|Hm]; [now left | right].
    destruct (configure_active_normal kit paths viteOptions options Hok)
      as (config & Hact & _ & _ & Hmod & _).
    fold r in Hact. rewrite Hact. simpl. now rewrite Hmod.
Qed.

(** X20: with [includeVersionFile] and no [modifyURLPrefix], every call
    that does not throw pushes the version file again: after a second call
    the patterns are those of the first followed by the version file. *)
Theorem configure_pushes_version_file_again kit paths viteOptions options :
  let r := configureSvelteKitOptions pathResolve newRegExp kit paths
             viteOptions options in
  let r' := configureSvelteKitOptions pathResolve newRegExp kit paths
              viteOptions r.1 in
  truthyBool (Kit.includeVersionFile paths) = true ->
  isSome (modifyURLPrefix (default emptyConfig (activeConfig options))) = false ->
  r.2 = None ->
  r'.2 = None
  /\ exists config config' patterns,
      activeConfig r.1 = Some config
      /\ activeConfig r'.1 = Some config'
      /\ globPatterns config = Some patterns
      /\ globPatterns config'
         = Some (patterns
                 ++ ["client/" +:+ buildAssetsDirOf (Kit.appDir paths)
                     +:+ "version.json"])%list.
Proof.
  intros r r' Hv Hm Hok.
  destruct (configure_active_normal kit paths viteOptions options Hok)
    as (config & Hact & _ & _ & Hmod & Hp & _ & Hdc & _).
  fold r in Hact. rewrite Hm, Hv in Hp.
  assert (r'.2 = None) as Hok'.
  { subst r'. rewrite configure_outcome, Hact. simpl.
    now destruct (dontCacheBustURLsMatching config). }
  split; [exact Hok'|].
  destruct (configure_active_normal kit paths viteOptions r.1 Hok')
    as (config' & Hact' & _ & _ & _ & Hp' & _).
  fold r' in Hact'. rewrite Hact in Hp'. simpl in Hp'.
  rewrite Hmod, Hm, Hv, Hp in Hp'.
  exists config, config'. eexists.
  split; [exact Hact|]. split; [exact Hact'|]. split; [exact Hp|].
  rewrite Hp'. f_equal. f_equal.
  destruct (buildGlobPatterns_tests (globPatterns (default emptyConfig (activeConfig options))))
    as (T1 & T2 & T3).
  apply buildGlobPatterns_fixed; now apply some_app_l.
Qed.

(** X21: under a strategy other than [injectManifest], when the caller
    supplied no manifest transforms and the call does not throw, the one
    transform of the configuration, applied to any entries on any host,
    answers no manifest that lists the web manifest, whose name is
    [manifestFilename] or else [manifest.webmanifest]. *)
Theorem configured_transform_drops_web_manifest {C H : Type}
    (host : Host E C H) kit paths viteOptions options :
  let r := configureSvelteKitOptions pathResolve newRegExp kit paths
             viteOptions options in
  let name := default "manifest.webmanifest" (manifestFilename options) in
  strategies options <> Some "injectManifest" ->
  manifestTransforms (default emptyConfig (activeConfig options)) = None ->
  r.2 = None ->
  name <> "" ->
  exists config t,
    activeConfig r.1 = Some config
    /\ manifestTransforms config = Some [t]
    /\ forall entries h,
        exists res,
          callKitTransform host t entries h = Some res
          /\ forall manifest l,
              res.2 = Resolved manifest -> In l manifest ->
              urlAt res.1 l <> Some name.
Proof.
  intros r name Hs Hnone Hok Hname.
  destruct (configure_transforms_eq kit paths viteOptions options)
    as (config & Hact & _ & Ht). fold r in Hact, Ht.
  rewrite Hnone, Hok in Ht. simpl in Ht.
  rewrite bool_decide_eq_false_2 in Ht by exact Hs. fold name in Ht.
  exists config. eexists. split; [exact Hact|]. split; [exact Ht|].
  intros entries h. eexists. split; [reflexivity|].
  intros manifest l Hm Hin.
  destruct (transform_manifest_In host _ _ _ _ _ _ _ _ Hm Hin) as [_ [Hw|Hw]];
    [|exact Hw].
  apply truthy_Some in Hname. congruence.
Qed.

End ConfigureFacts.

(** A first call on empty options, then a second one. *)
Lemma configure_idempotent_witness :
  configureSvelteKitOptions SampleConfig.pathResolve SampleConfig.newRegExp
    SampleConfig.kit SampleConfig.paths SampleConfig.viteOptions
    (configureSvelteKitOptions SampleConfig.pathResolve SampleConfig.newRegExp
       SampleConfig.kit SampleConfig.paths SampleConfig.viteOptions
       SampleConfig.options).1
  = ((configureSvelteKitOptions SampleConfig.pathResolve
        SampleConfig.newRegExp SampleConfig.kit SampleConfig.paths
        SampleConfig.viteOptions SampleConfig.options).1, None).
Proof.
  exact (configure_idempotent SampleConfig.pathResolve SampleConfig.newRegExp
           SampleConfig.kit SampleConfig.paths SampleConfig.viteOptions
           SampleConfig.options eq_refl (or_introl eq_refl)).
Defined.

Lemma configure_pushes_version_file_again_witness :
  (configureSvelteKitOptions SampleConfig.pathResolve SampleConfig.newRegExp
     SampleConfig.kit SampleConfig.versioned SampleConfig.viteOptions
     (configureSvelteKitOptions SampleConfig.pathResolve
        SampleConfig.newRegExp SampleConfig.kit SampleConfig.versioned
        SampleConfig.viteOptions SampleConfig.options).1).2
  = None.
Proof.
  exact (proj1 (configure_pushes_version_file_again SampleConfig.pathResolve
                  SampleConfig.newRegExp SampleConfig.kit
                  SampleConfig.versioned SampleConfig.viteOptions
                  SampleConfig.options eq_refl eq_refl eq_refl)).
Defined.

Lemma configured_transform_drops_web_manifest_witness :
  exists config t,
    activeConfig
      (configureSvelteKitOptions SampleConfig.pathResolve
         SampleConfig.newRegExp SampleConfig.kit SampleConfig.paths
         SampleConfig.viteOptions SampleConfig.options).1 = Some config
    /\ manifestTransforms config = Some [t]
    /\ forall entries h,
        exists res,
          callKitTransform Sample.host t entries h = Some res
          /\ forall manifest l,
              res.2 = Resolved manifest -> In l manifest ->
              urlAt res.1 l <> Some "manifest.webmanifest".
Proof.
  assert (strategies SampleConfig.options <> Some "injectManifest") as Hs
    by discriminate.
  assert ("manifest.webmanifest" <> "") as Hn by discriminate.
  exact (configured_transform_drops_web_manifest SampleConfig.pathResolve
           SampleConfig.newRegExp Sample.host SampleConfig.kit
           SampleConfig.paths SampleConfig.viteOptions SampleConfig.options
           Hs eq_refl eq_refl Hn).
Defined.

(** Empty options, configured: the workbox object gets every default. *)
Example run_configure_defaults :
  configureSvelteKitOptions SampleConfig.pathResolve SampleConfig.newRegExp
    SampleConfig.kit SampleConfig.versioned SampleConfig.viteOptions
    SampleConfig.options
  = (mkPwaOptions (Some false) None None None None
       (Some (mkGlobConfig (Some (Some "200.html"))
                (Some "/site/.svelte-kit/output") None
                (Some [clientPattern; prerenderedPattern;
                       "client/_app/version.json"])
                (Some [serverIgnore]) (Some (Some "_app/immutable/"))
                (Some [KitTransform "/" "/site/.svelte-kit/output"
                         (Some "manifest.webmanifest") SampleConfig.kit])))
       None None,
     None).
Proof. reflexivity. Qed.

(** An [appDir] that is no regular expression makes the call throw, after
    the glob lists were set. *)
Example run_configure_throws :
  configureSvelteKitOptions (U := unit) SampleConfig.pathResolve SampleConfig.newRegExp
    SampleConfig.kit (Kit.mkPaths None None None (Some "(app") None)
    SampleConfig.viteOptions
    (mkPwaOptions None (Some "injectManifest") None None None None None
       (Some None))
  = (mkPwaOptions (Some false) (Some "injectManifest") (Some "src")
       (Some "service-worker.js")
       (Some (mkGlobConfig None (Some "/site/.svelte-kit/output") None
                (Some [clientPattern; prerenderedPattern])
                (Some [serverIgnore]) None None))
       None None (Some None),
     Some "SyntaxError").
Proof. reflexivity. Qed.

(** ** Two pages, one url *)

Lemma string_app_inv_r (a b p : string) : a +:+ p = b +:+ p -> a = b.
Proof.
  revert b. induction a as [|c a IH]; intros [|d b] Heq.
  - reflexivity.
  - exfalso. apply (f_equal String.length) in Heq.
    rewrite string_app_empty_l, string_length_app in Heq. simpl in Heq. lia.
  - exfalso. apply (f_equal String.length) in Heq.
    rewrite string_app_empty_l, string_length_app in Heq. simpl in Heq. lia.
  - rewrite !string_app_cons in Heq. injection Heq as -> Heq.
    f_equal. now apply IH.
Qed.

(** X22: the pretty URL does not tell a page from the index of the directory
    of the same name: [a.html] and [a/index.html] get the same url. *)
Theorem prettyUrl_page_and_directory_index (base suffix a : string) :
  a <> "index" -> endsWith a "/index" = false ->
  prettyUrl base suffix (a +:+ ".html")
  = prettyUrl base suffix (a +:+ "/index.html")
  /\ prettyUrl base suffix (a +:+ ".html") = a +:+ suffix.
Proof.
  intros Hroot Hdir. rewrite prettyUrl_dir_index.
  assert (prettyUrl base suffix (a +:+ ".html") = a +:+ suffix) as ->;
    [|split; reflexivity].
  apply prettyUrl_page.
  - intros Heq. apply Hroot. now apply (string_app_inv_r a "index" ".html").
  - destruct (endsWith (a +:+ ".html") "/index.html") eqn:He; [|reflexivity].
    apply endsWith_inv in He as [x Hx].
    change "/index.html" with ("/index" +:+ ".html") in Hx.
    rewrite <- string_app_assoc in Hx. apply string_app_inv_r in Hx.
    subst a. now rewrite endsWith_app in Hdir.
Qed.

Lemma prettyUrl_page_and_directory_index_witness :
  prettyUrl "/" "/" ("blog" +:+ ".html")
  = prettyUrl "/" "/" ("blog" +:+ "/index.html")
  /\ prettyUrl "/" "/" ("blog" +:+ ".html") = "blog" +:+ "/".
Proof.
  apply (prettyUrl_page_and_directory_index "/" "/" "blog");
    [discriminate | reflexivity].
Defined.

(** ** The prefix dispatch within the transform *)

Section DispatchClaim.

Context {E C H : Type}.
Variable host : Host E C H.

Implicit Types (h : list ManifestEntry) (entries : list nat).
Implicit Types (options : option (KitOptions E)) (wmn : option string).

(** An entry of the default fallback document passes the first filter only
    when a fallback override is configured, which is then the fallback path
    of the dispatch. *)
Lemma kept_fallback_override options h l :
  keepEntry (fallbackOf options).2 h l = true ->
  urlAt h l = Some defaultAdapterFallback ->
  optAdapterFallback options = Some (fallbackOf options).1
  /\ (fallbackOf options).1 <> "".
Proof.
  unfold keepEntry, fallbackOf. intros Hk Hu.
  rewrite (bool_decide_eq_true_2 _ Hu), andb_true_r in Hk.
  destruct (truthy (optAdapterFallback options)) eqn:Ht; [|discriminate].
  destruct (optAdapterFallback options) as [af|]; [|discriminate].
  simpl. split; [reflexivity | now apply truthy_Some].
Qed.

(** C1, amended: for every entry that passes the first filter (and is
    listed once), the transform resolves the url by the first rule that
    matches, in the order client prefix (7 code units removed),
    prerendered-dependency prefix (25 removed), prerendered-page prefix (18
    removed), default fallback document (replaced by the configured
    fallback path), and applies no later rule to the result; what it writes
    to the entry is the resolved url when that does not end in [.html], and
    its pretty URL when it does. *)
Theorem transform_resolves_by_first_match
    base outDir wmn options entries h l e :
  h !! l = Some e -> NoDup entries -> In l entries ->
  keepEntry (fallbackOf options).2 h l = true ->
  exists resolved,
    (createManifestTransform host base outDir wmn options entries h).1 !! l
    = Some {| url := if endsWith resolved ".html"
                     then prettyUrl base (suffixOf options)
                            (stripLeadingSlash resolved)
                     else resolved;
              revision := revision e; size := size e |}
    /\ (startsWith (url e) "client/" = true ->
        url e = "client/" +:+ resolved /\ resolved = slice (url e) 7 None)
    /\ (startsWith (url e) "client/" = false ->
        startsWith (url e) "prerendered/dependencies/" = true ->
        url e = "prerendered/dependencies/" +:+ resolved
        /\ resolved = slice (url e) 25 None)
    /\ (startsWith (url e) "client/" = false ->
        startsWith (url e) "prerendered/dependencies/" = false ->
        startsWith (url e) "prerendered/pages/" = true ->
        url e = "prerendered/pages/" +:+ resolved
        /\ resolved = slice (url e) 18 None)
    /\ (startsWith (url e) "client/" = false ->
        startsWith (url e) "prerendered/dependencies/" = false ->
        startsWith (url e) "prerendered/pages/" = false ->
        url e = "prerendered/fallback.html" ->
        optAdapterFallback options = Some resolved /\ resolved <> "")
    /\ (startsWith (url e) "client/" = false ->
        startsWith (url e) "prerendered/dependencies/" = false ->
        startsWith (url e) "prerendered/pages/" = false ->
        url e <> "prerendered/fallback.html" ->
        resolved = url e)
    /\ len "client/" = 7
    /\ len "prerendered/dependencies/" = 25
    /\ len "prerendered/pages/" = 18.
Proof.
  intros Hl Hnd Hin Hk.
  assert (In l (List.filter (keepEntry (fallbackOf options).2 h) entries))
    as Hkept by (apply filter_In; auto).
  pose proof (transform_lookup_kept host base outDir wmn options entries h l e
                Hl Hnd Hkept) as Hlook.
  exists (resolvePrefix (fallbackOf options).1 (url e)).
  destruct (resolvePrefix_first_match (fallbackOf options).1 (url e))
    as (R1 & R2 & R3 & R4 & L1 & L2 & L3).
  split; [exact Hlook|].
  split; [intros Hc; destruct (R1 Hc) as [Hs Hu]; now split|].
  split; [intros Hc Hd; destruct (R2 Hc Hd) as [Hs Hu]; now split|].
  split; [intros Hc Hd Hp; destruct (R3 Hc Hd Hp) as [Hs Hu]; now split|].
  split.
  { intros Hc Hd Hp Hf. rewrite (R4 Hc Hd Hp Hf).
    apply (kept_fallback_override options h l Hk).
    unfold urlAt. rewrite Hl. simpl. now rewrite Hf. }
  split; [|now repeat split].
  intros Hc Hd Hp Hf. unfold resolvePrefix. rewrite Hc, Hd, Hp.
  now destruct (String.eqb_spec (url e) defaultAdapterFallback).
Qed.

End DispatchClaim.

(** C1, put to the test: the fallback document with the override
    [offline.html], and a prerendered page.  The rules give [offline.html]
    and [about.html]; the urls written are [offline] and [about]. *)
Lemma resolved_url_not_written_counterexample :
  resolvePrefix "offline.html" "prerendered/fallback.html" = "offline.html"
  /\ resolvePrefix "offline.html" "prerendered/pages/about.html" = "about.html"
  /\ createManifestTransform Sample.host "/" "/out" None
       (Sample.kit (Some "offline.html") None) [0; 1]%nat
       [mkEntry "prerendered/fallback.html" "r3" 30;
        mkEntry "prerendered/pages/about.html" "r2" 20]
     = ([mkEntry "offline" "r3" 30; mkEntry "about" "r2" 20],
        Resolved [0; 1]%nat)
  /\ "offline" <> "offline.html" /\ "about" <> "about.html".
Proof. repeat split; discriminate. Qed.

(** A client asset whose remainder looks like a prerendered page: the
    client rule alone is applied, and the remainder is what is written. *)
Lemma transform_resolves_by_first_match_witness :
  (createManifestTransform Sample.host "/" "/out" None None [0%nat]
     [mkEntry "client/prerendered/pages/a.js" "r" 1]).1 !! 0%nat
  = Some (mkEntry "prerendered/pages/a.js" "r" 1).
Proof.
  assert (NoDup [0%nat]) as Hnd by apply NoDup_singleton.
  assert (In 0%nat [0%nat]) as Hin by (simpl; tauto).
  destruct (transform_resolves_by_first_match Sample.host "/" "/out" None None
              [0%nat] [mkEntry "client/prerendered/pages/a.js" "r" 1] 0%nat
              (mkEntry "client/prerendered/pages/a.js" "r" 1)
              eq_refl Hnd Hin eq_refl) as (resolved & Hlook & Hclient & _).
  destruct (Hclient eq_refl) as [_ ->]. exact Hlook.
Defined.
